(** * Robin: the bot editor page, the anonymous user id and the lifecycle
      controller it talks to.

    The development embeds the TypeScript sources of the front end
    ([lib/user.ts] and the editor page component) as Rocq functions and
    proves the properties the specification states about them.  The parts
    of the system that live in the Python back end are modelled from the
    specification in [Module Controller]. *)

From Stdlib Require Import Ascii String List.
From stdpp Require Import gmap strings list pretty.

Local Open Scope string_scope.
Local Open Scope list_scope.

(** ** JavaScript values used by the sources *)

Module JS.

(** [x || d] on a string: the empty string is falsy. *)
Definition or_else (x d : string) : string :=
  match x with
  | EmptyString => d
  | _ => x
  end.

(** [x || d] on a value that may be [undefined] (or [null]). *)
Definition or_else_opt (x : option string) (d : string) : string :=
  match x with
  | Some v => or_else v d
  | None => d
  end.

(** Truthiness of the result of [Storage.getItem]: [null] and the empty
    string are falsy, every other string is truthy. *)
Definition truthy (x : option string) : bool :=
  match x with
  | Some (String _ _) => true
  | _ => false
  end.

(** [s.includes(sub)] *)
Fixpoint includes (s sub : string) : bool :=
  String.prefix sub s ||
  match s with
  | EmptyString => false
  | String _ s' => includes s' sub
  end.

(** [s.substring(a, b)] for [a <= b]. *)
Definition substring (a b : nat) (s : string) : string :=
  String.substring a (b - a) s.

End JS.

(** ** lib/user.ts *)

Module User.

Definition USER_ID_KEY : string := "botforge_user_id".

(** The two impure reads of [generateUserId]: [Date.now()] and the text of
    [Math.random().toString(36)]. *)
Record Entropy := { now : N; random36 : string }.

Definition generateUserId (e : Entropy) : string :=
  "user_" +:+ pretty (now e) +:+ "_" +:+ JS.substring 2 15 (random36 e).

(** The global environment: [None] when [typeof window === "undefined"],
    otherwise the content of [localStorage]. *)
Definition Env : Type := option (gmap string string).

Inductive Console :=
| console_log (tag : string) (value : string).

(** [getUserId()]: the value returned, the environment afterwards and what
    was written to the console. *)
Definition getUserId (e : Entropy) (env : Env) : string * Env * list Console :=
  match env with
  | None => ("", None, [])
  | Some localStorage =>
      let userId := localStorage !! USER_ID_KEY in
      if negb (JS.truthy userId) then
        let userId := generateUserId e in
        (userId, Some (<[USER_ID_KEY := userId]> localStorage),
         [console_log "[UserID] Created new user ID:" userId])
      else
        (default "" userId, Some localStorage, [])
  end.

Definition clearUserId (env : Env) : Env :=
  match env with
  | Some localStorage => Some (delete USER_ID_KEY localStorage)
  | None => None
  end.

(** Successive calls of [getUserId], each with its own clock and random
    draw: the values returned, in order, and the final environment. *)
Fixpoint calls (es : list Entropy) (env : Env) : list string * Env :=
  match es with
  | [] => ([], env)
  | e :: es' =>
      let '(v, env1, _) := getUserId e env in
      let '(vs, env2) := calls es' env1 in
      (v :: vs, env2)
  end.

End User.

(** ** The project tree of the editor page *)

Module Tree.

Inductive NodeType := file | dir.

(** [interface BackendNode]; [children] is optional. *)
#[local] Unset Elimination Schemes.
Inductive BackendNode :=
  Node (name : string) (path : string) (type : NodeType)
       (children : option (list BackendNode)).
#[local] Set Elimination Schemes.

Definition name (n : BackendNode) : string := let 'Node x _ _ _ := n in x.
Definition path (n : BackendNode) : string := let 'Node _ x _ _ := n in x.
Definition type (n : BackendNode) : NodeType := let 'Node _ _ x _ := n in x.
Definition children (n : BackendNode) : option (list BackendNode) :=
  let 'Node _ _ _ x := n in x.

Definition is_file (n : BackendNode) : bool :=
  match type n with file => true | dir => false end.

Definition is_dir (n : BackendNode) : bool :=
  match type n with dir => true | file => false end.

(** The test of the first [if] of the loop body. *)
Definition matches (targetName : string) (node : BackendNode) : bool :=
  is_file node &&
  (String.eqb (name node) targetName || String.eqb (path node) targetName).

(** One iteration of the [for] loop of [findFileInTree]: [Some] is a
    [return] out of the loop, [None] falls through to the next node. *)
Fixpoint findFileInTree_body (targetName : string) (node : BackendNode)
  : option BackendNode :=
  if matches targetName node then Some node
  else
    match node with
    | Node _ _ dir (Some children) =>
        (fix loop (nodes : list BackendNode) : option BackendNode :=
           match nodes with
           | [] => None
           | node :: rest =>
               match findFileInTree_body targetName node with
               | Some found => Some found
               | None => loop rest
               end
           end) children
    | _ => None
    end.

Fixpoint findFileInTree (nodes : list BackendNode) (targetName : string)
  : option BackendNode :=
  match nodes with
  | [] => None
  | node :: rest =>
      match findFileInTree_body targetName node with
      | Some found => Some found
      | None => findFileInTree rest targetName
      end
  end.

(** The nodes a depth-first walk visits, in pre-order: a node, then, for a
    directory, the walk of its children. *)
Fixpoint preorder_node (node : BackendNode) : list BackendNode :=
  node ::
  match node with
  | Node _ _ dir (Some children) =>
      (fix walk (nodes : list BackendNode) : list BackendNode :=
         match nodes with
         | [] => []
         | node :: rest => preorder_node node ++ walk rest
         end) children
  | _ => []
  end.

Fixpoint preorder (nodes : list BackendNode) : list BackendNode :=
  match nodes with
  | [] => []
  | node :: rest => preorder_node node ++ preorder rest
  end.

(** Every node of the data, whatever the type of its parent. *)
Fixpoint all_nodes_node (node : BackendNode) : list BackendNode :=
  node ::
  match node with
  | Node _ _ _ (Some children) =>
      (fix walk (nodes : list BackendNode) : list BackendNode :=
         match nodes with
         | [] => []
         | node :: rest => all_nodes_node node ++ walk rest
         end) children
  | _ => []
  end.

Fixpoint all_nodes (nodes : list BackendNode) : list BackendNode :=
  match nodes with
  | [] => []
  | node :: rest => all_nodes_node node ++ all_nodes rest
  end.

(** A tree as the back end lists a directory: only directories have
    children. *)
Definition files_are_leaves (nodes : list BackendNode) : bool :=
  forallb (λ n, match type n, children n with file, Some _ => false | _, _ => true end)
          (all_nodes nodes).

(** A project tree as the back end lists one. *)
Definition sample_tree : list BackendNode :=
  [ Node "README.md" "README.md" file None;
    Node "src" "src" dir (Some
      [ Node "cogs" "src/cogs" dir (Some [ Node "main.py" "src/cogs/main.py" file None ]);
        Node "bot.py" "src/bot.py" file None;
        Node "main.py" "src/main.py" file None ]);
    Node "main.py" "main.py" file None;
    Node "bot.py" "bot.py" dir (Some []) ].

End Tree.

(** ** The editor page component *)

Module Editor.

(** *** What the handlers do to the outside world *)

Inductive Method := GET | POST.

Inductive Level := log | warn | error.

Inductive Timer :=
| fixSyntaxErrors.

Inductive Effect :=
| fetch_ (method : Method) (url : string) (project_id : option string)
| alert (message : string)
| triggerConfetti (particleCount spread : N)
| console (level : Level) (text : string) (err : option string)
| setTimeout (callback : Timer) (ms : N).

(** *** What the network answers *)

Inductive Json (A : Type) :=
| json_value (data : A)
| json_error (message : string).
Arguments json_value {A} data.
Arguments json_error {A} message.

(** The outcome of [await fetch(...)]: the promise rejects, or resolves to a
    response with its [ok] flag and the outcome of [res.json()]. *)
Inductive FetchResult (A : Type) :=
| network_error (message : string)
| response (ok : bool) (body : Json A).
Arguments network_error {A} message.
Arguments response {A} ok body.

Inductive LogsStatus :=
| success | docker_not_running | container_not_running | status_error.

(** [interface LogsResponse] *)
Record LogsResponse := {
  project_id : string;
  logs : string;
  status : option LogsStatus;
  error_ : option string
}.

(** The body of a [/start] or [/stop] answer, of which only [detail] is
    read. *)
Record Detail := { detail : option string }.

(** *** The state of the component *)

Inductive DockerStatus := running | not_running | unknown.

Record EditorState := {
  botRunning : bool;
  botLogs : string;
  isStarting : bool;
  isStopping : bool;
  showLogs : bool;
  dockerStatus : DockerStatus;
  confettiShown : bool;
  sessionStorage : gmap string string
}.

Definition initialState (sessionStorage : gmap string string) : EditorState :=
  {| botRunning := false; botLogs := ""; isStarting := false;
     isStopping := false; showLogs := false; dockerStatus := unknown;
     confettiShown := false; sessionStorage := sessionStorage |}.

(** *** Handlers: state, effects and exceptions *)

Inductive Completion (A : Type) :=
| Normal (a : A)
| Throw (message : string).
Arguments Normal {A} a.
Arguments Throw {A} message.

Definition Async (A : Type) : Type :=
  EditorState → EditorState * list Effect * Completion A.

Definition ret {A} (a : A) : Async A := λ s, (s, [], Normal a).

Definition throw {A} (message : string) : Async A :=
  λ s, (s, [], Throw message).

Definition bind {A B} (m : Async A) (k : A → Async B) : Async B :=
  λ s,
    match m s with
    | (s1, e1, Normal a) => let '(s2, e2, c) := k a s1 in (s2, e1 ++ e2, c)
    | (s1, e1, Throw message) => (s1, e1, Throw message)
    end.

(** [try { m } catch (e) { h e }] *)
Definition try_catch {A} (m : Async A) (h : string → Async A) : Async A :=
  λ s,
    match m s with
    | (s1, e1, Normal a) => (s1, e1, Normal a)
    | (s1, e1, Throw message) =>
        let '(s2, e2, c) := h message s1 in (s2, e1 ++ e2, c)
    end.

(** [try { m } finally { f }] where [f] does not throw. *)
Definition try_finally {A} (m : Async A) (f : Async unit) : Async A :=
  λ s,
    let '(s1, e1, c) := m s in
    let '(s2, e2, _) := f s1 in
    (s2, e1 ++ e2, c).

Definition emit (e : Effect) : Async unit := λ s, (s, [e], Normal tt).

Definition modify (f : EditorState → EditorState) : Async unit :=
  λ s, (f s, [], Normal tt).

Definition gets {A} (f : EditorState → A) : Async A := λ s, (s, [], Normal (f s)).

Declare Scope async_scope.
Delimit Scope async_scope with async.
Notation "x <- m ;; k" := (bind m (λ x, k))
  (at level 100, m at next level, right associativity) : async_scope.
Notation "m ;; k" := (bind m (λ _, k))
  (at level 100, right associativity) : async_scope.
Local Open Scope async_scope.

Definition state_of {A} (r : EditorState * list Effect * Completion A) : EditorState :=
  r.1.1.
Definition effects_of {A} (r : EditorState * list Effect * Completion A) : list Effect :=
  r.1.2.
Definition completion_of {A} (r : EditorState * list Effect * Completion A) : Completion A :=
  r.2.

(** The React setters. *)
Definition setBotRunning (v : bool) : Async unit :=
  modify (λ s, {| botRunning := v; botLogs := botLogs s; isStarting := isStarting s;
                  isStopping := isStopping s; showLogs := showLogs s;
                  dockerStatus := dockerStatus s; confettiShown := confettiShown s;
                  sessionStorage := sessionStorage s |}).
Definition setBotLogs (v : string) : Async unit :=
  modify (λ s, {| botRunning := botRunning s; botLogs := v; isStarting := isStarting s;
                  isStopping := isStopping s; showLogs := showLogs s;
                  dockerStatus := dockerStatus s; confettiShown := confettiShown s;
                  sessionStorage := sessionStorage s |}).
Definition setIsStarting (v : bool) : Async unit :=
  modify (λ s, {| botRunning := botRunning s; botLogs := botLogs s; isStarting := v;
                  isStopping := isStopping s; showLogs := showLogs s;
                  dockerStatus := dockerStatus s; confettiShown := confettiShown s;
                  sessionStorage := sessionStorage s |}).
Definition setIsStopping (v : bool) : Async unit :=
  modify (λ s, {| botRunning := botRunning s; botLogs := botLogs s; isStarting := isStarting s;
                  isStopping := v; showLogs := showLogs s;
                  dockerStatus := dockerStatus s; confettiShown := confettiShown s;
                  sessionStorage := sessionStorage s |}).
Definition setShowLogs (v : bool) : Async unit :=
  modify (λ s, {| botRunning := botRunning s; botLogs := botLogs s; isStarting := isStarting s;
                  isStopping := isStopping s; showLogs := v;
                  dockerStatus := dockerStatus s; confettiShown := confettiShown s;
                  sessionStorage := sessionStorage s |}).
Definition setDockerStatus (v : DockerStatus) : Async unit :=
  modify (λ s, {| botRunning := botRunning s; botLogs := botLogs s; isStarting := isStarting s;
                  isStopping := isStopping s; showLogs := showLogs s;
                  dockerStatus := v; confettiShown := confettiShown s;
                  sessionStorage := sessionStorage s |}).
Definition setConfettiShown (v : bool) : Async unit :=
  modify (λ s, {| botRunning := botRunning s; botLogs := botLogs s; isStarting := isStarting s;
                  isStopping := isStopping s; showLogs := showLogs s;
                  dockerStatus := dockerStatus s; confettiShown := v;
                  sessionStorage := sessionStorage s |}).

(** [sessionStorage] is the browser's, shared by every handler. *)
Definition updStorage (f : gmap string string → gmap string string) : Async unit :=
  modify (λ s, {| botRunning := botRunning s; botLogs := botLogs s; isStarting := isStarting s;
                  isStopping := isStopping s; showLogs := showLogs s;
                  dockerStatus := dockerStatus s; confettiShown := confettiShown s;
                  sessionStorage := f (sessionStorage s) |}).
Definition getItem (key : string) : Async (option string) :=
  gets (λ s, sessionStorage s !! key).
Definition setItem (key value : string) : Async unit := updStorage (insert key value).
Definition removeItem (key : string) : Async unit := updStorage (delete key).

(** [await fetch(url, ...)]: the request leaves, and the promise resolves to
    the response or rejects. *)
Definition fetch {A} (method : Method) (url : string) (project_id : option string)
    (r : FetchResult A) : Async (bool * Json A) :=
  emit (fetch_ method url project_id) ;;
  match r with
  | network_error message => throw message
  | response ok body => ret (ok, body)
  end.

(** The outcomes of a request that [handleStartBot] and [handleStopBot]
    treat as a failure: the promise rejects, or [res.ok] is false. *)
Definition request_failed {A} (r : FetchResult A) : bool :=
  match r with
  | network_error _ => true
  | response ok _ => negb ok
  end.

(** [await res.json()] *)
Definition json {A} (body : Json A) : Async A :=
  match body with
  | json_value data => ret data
  | json_error message => throw message
  end.

Section EditorPage.

Variable BACKEND_URL : string.
Variable projectId : string.

Definition confettiKey : string := "confetti_" +:+ projectId.
Definition startedKey : string := "bot_" +:+ projectId +:+ "_started".

Definition has_marker (logs : string) : bool :=
  JS.includes logs "Bot logged in as:" || JS.includes logs "Bot is online and ready!".

Definition fetchLogs (r : FetchResult LogsResponse) : Async unit :=
  try_catch
    (res <- fetch GET (BACKEND_URL +:+ "/logs?project_id=" +:+ projectId) None r ;;
     if negb res.1 then ret tt
     else
       data <- json res.2 ;;
       match status data with
       | Some success =>
           let logs := JS.or_else (logs data) "" in
           setBotLogs logs ;;
           hasShownConfetti <- getItem confettiKey ;;
           if negb (JS.truthy hasShownConfetti) && has_marker logs then
             emit (triggerConfetti 150 90) ;;
             setItem confettiKey "true" ;;
             setConfettiShown true
           else ret tt
       | Some docker_not_running =>
           setDockerStatus not_running ;;
           setBotLogs ""
       | Some container_not_running =>
           setBotRunning false ;;
           setBotLogs ""
       | _ => ret tt
       end)
    (λ e, emit (console error "Failed to fetch logs:" (Some e))).

Definition checkStatus (r : FetchResult LogsResponse) : Async unit :=
  try_catch
    (res <- fetch GET (BACKEND_URL +:+ "/logs?project_id=" +:+ projectId) None r ;;
     if negb res.1 then setDockerStatus not_running
     else
       data <- json res.2 ;;
       match status data with
       | Some success =>
           setBotRunning true ;;
           setBotLogs (JS.or_else (logs data) "")
       | Some docker_not_running =>
           setDockerStatus not_running
       | _ =>
           setBotRunning false ;;
           setDockerStatus running
       end)
    (λ e, setDockerStatus not_running ;; emit (console error "" (Some e))).

(** Every render makes a [handleStartBot] of its own, and the [dockerStatus]
    the function tests is the constant of that render, not the state at the
    time of the call: it is the first argument here.  The source calls the
    function from two places: the "Start Bot" button calls the one of the
    render on screen ([startButton] below), and the auto-start timer of
    [loadTree] calls the one of the render whose effect ran [loadTree]
    ([autoStartTimer] below). *)
Definition handleStartBot (docker : DockerStatus)
    (r : FetchResult Detail) (rlogs : FetchResult LogsResponse) : Async unit :=
  match docker with
  | not_running =>
      emit (alert "Docker daemon is not running. Please start Docker Desktop and try again.")
  | _ =>
      setIsStarting true ;;
      try_finally
        (try_catch
           (res <- fetch POST (BACKEND_URL +:+ "/start") (Some projectId) r ;;
            (if negb res.1 then
               data <- json res.2 ;;
               throw (JS.or_else_opt (detail data) "Failed to start bot")
             else ret tt) ;;
            _ <- json res.2 ;;
            setBotRunning true ;;
            setDockerStatus running ;;
            setShowLogs true ;;
            fetchLogs rlogs ;;
            started <- getItem startedKey ;;
            if negb (JS.truthy started) then
              setItem startedKey "true" ;;
              emit (setTimeout fixSyntaxErrors 3000)
            else ret tt)
           (λ e, emit (console error "" (Some e)) ;;
                 emit (alert (JS.or_else e "Failed to start bot"))))
        (setIsStarting false)
  end.

Definition handleStopBot (r : FetchResult Detail) : Async unit :=
  setIsStopping true ;;
  try_finally
    (try_catch
       (res <- fetch POST (BACKEND_URL +:+ "/stop") (Some projectId) r ;;
        (if negb res.1 then
           data <- json res.2 ;;
           throw (JS.or_else_opt (detail data) "Failed to stop bot")
         else ret tt) ;;
        setBotRunning false ;;
        setBotLogs "" ;;
        setConfettiShown false ;;
        removeItem confettiKey)
       (λ e, emit (console error "" (Some e)) ;;
             emit (alert (JS.or_else e "Failed to stop bot"))))
    (setIsStopping false).

(** The cleanup function the first effect returns: it runs when the
    component unmounts.  The promise of [fetch] is not awaited: the
    completion below is that of [fetch(...).catch(...)] once it settles, a
    [Throw] standing for a rejection nobody handles. *)
Definition cleanup (r : FetchResult Detail) : Async unit :=
  emit (console log "Editor unmounting: stopping bot container..." None) ;;
  try_catch
    (_ <- fetch POST (BACKEND_URL +:+ "/stop") (Some projectId) r ;; ret tt)
    (λ err, emit (console warn "Failed to stop container on cleanup:" (Some err))).

(** The auto-refresh effect calls [fetchLogs] every three seconds while the
    bot runs and Docker is fine; [polls] is a series of such calls, one
    answer each. *)
Fixpoint polls (rs : list (FetchResult LogsResponse)) : Async unit :=
  match rs with
  | [] => ret tt
  | r :: rs' => fetchLogs r ;; polls rs'
  end.

(** Whether a poll brings logs with a readiness marker. *)
Definition shows_marker (r : FetchResult LogsResponse) : bool :=
  match r with
  | response true (json_value data) =>
      match status data with
      | Some success => has_marker (logs data)
      | _ => false
      end
  | _ => false
  end.

(** The latch of the readiness signal, as [fetchLogs] reads it. *)
Definition latched (s : EditorState) : bool :=
  JS.truthy (sessionStorage s !! confettiKey).

(** The button of the header: [true] when "Start Bot" is rendered, [false]
    when "Stop Bot" is. *)
Definition rendersStartButton (s : EditorState) : bool := negb (botRunning s).

(** [disabled={isStarting || dockerStatus === "not_running"}] on the
    "Start Bot" button. *)
Definition startButtonDisabled (s : EditorState) : bool :=
  isStarting s || match dockerStatus s with not_running => true | _ => false end.

(** A click on "Start Bot": [onClick={handleStartBot}] holds the function of
    the render on screen, whose [dockerStatus] is the current one; a disabled
    button, or one that is not on screen, calls nothing. *)
Definition startButton (r : FetchResult Detail) (rlogs : FetchResult LogsResponse)
  : Async unit :=
  s <- gets id ;;
  if rendersStartButton s && negb (startButtonDisabled s)
  then handleStartBot (dockerStatus s) r rlogs
  else ret tt.

(** [setTimeout(() => { handleStartBot() }, 1000)] in [loadTree]: the effect
    that defines [loadTree] runs after the first render of the page, where
    [dockerStatus] is ["unknown"], the initial value of the state; whatever
    [checkStatus] has set by the time the timer fires, the function called is
    that first one. *)
Definition autoStartTimer (r : FetchResult Detail) (rlogs : FetchResult LogsResponse)
  : Async unit :=
  handleStartBot unknown r rlogs.

End EditorPage.

(** How often the confetti was triggered. *)
Definition is_confetti (e : Effect) : bool :=
  match e with triggerConfetti _ _ => true | _ => false end.

Definition fired (es : list Effect) : nat := length (List.filter is_confetti es).

(** The requests sent to the back end. *)
Definition is_request (e : Effect) : bool :=
  match e with fetch_ _ _ _ => true | _ => false end.

Definition requests (es : list Effect) : list Effect := List.filter is_request es.

(** The warnings and errors written to the console. *)
Definition is_logged (e : Effect) : bool :=
  match e with console warn _ _ | console error _ _ => true | _ => false end.

Definition logged (es : list Effect) : list Effect := List.filter is_logged es.

End Editor.

(** ** The lifecycle controller of the back end *)

Module Controller.

(** Modelled from the spec: the states of a [ContainerHandle] (data model,
    section 3); the back end that records them is not part of the front-end
    sources. *)
Inductive State := absent | building | running | exited | failed.

(** Modelled from the spec: a [ContainerHandle] with its [projectId],
    [runtimeId] and [state]. *)
Record ContainerHandle := {
  projectId : string;
  runtimeId : string;
  state : State
}.

(** Modelled from the spec: the error kinds of sections 4.2, 4.3 and 7 that
    the lifecycle operations return. *)
Inductive Error :=
| AlreadyRunningError
| EngineDownError
| NotRunningError
| BuildError (output : string).

(** Modelled from the spec: what the controller records (the handles and one
    [LogBuffer] per project) together with the container engine it drives
    (whether it is reachable and which containers it holds, by name). *)
Record World := {
  handles : list ContainerHandle;
  buffers : gmap string (list string);
  reachable : bool;
  live : gset string
}.

(** Modelled from the spec: before any request, nothing is recorded and the
    engine holds no container. *)
Definition init : World :=
  {| handles := []; buffers := ∅; reachable := true; live := ∅ |}.

(** Modelled from the spec: a handle counts for the invariant when its state
    is not [absent]. *)
Definition non_absent (h : ContainerHandle) : bool :=
  match state h with absent => false | _ => true end.

(** Modelled from the spec: [projectId] is the foreign key of a handle. *)
Definition of_project (p : string) (h : ContainerHandle) : bool :=
  String.eqb (projectId h) p.

(** Modelled from the spec: the handles of project [p] that are in a
    non-[absent] state. *)
Definition active (w : World) (p : string) : list ContainerHandle :=
  List.filter (λ h, of_project p h && non_absent h) (handles w).

(** Modelled from the spec: the recorded state of a project, [absent] when
    no handle of it is live. *)
Definition recorded (w : World) (p : string) : State :=
  match active w p with
  | h :: _ => state h
  | [] => absent
  end.

(** Modelled from the spec: [run] uses a deterministic container name derived
    from the project identifier (section 4.2). *)
Definition containerName (p : string) : string := "bot-" +:+ p.

(** Modelled from the spec: a transition of the handles of project [p] whose
    state satisfies [from] to the state [to]; transitions are driven by the
    controller only. *)
Definition transition (p : string) (from : State → bool) (to : State)
    (hs : list ContainerHandle) : list ContainerHandle :=
  map (λ h, if of_project p h && from (state h)
            then {| projectId := projectId h; runtimeId := runtimeId h; state := to |}
            else h) hs.

(** Modelled from the spec: the states a transition starts from
    ([building] for the end of a start, [running] for an exit or an orphan,
    any state for a stop). *)
Definition is_building (s : State) : bool := match s with building => true | _ => false end.
Definition is_running (s : State) : bool := match s with running => true | _ => false end.
Definition any_state (s : State) : bool := true.

(** Modelled from the spec: the result of the adapter's [build] and [run],
    with the captured output on failure. *)
Inductive BuildOutcome :=
| built
| build_failed (output : string).

(** Modelled from the spec: the first half of [start(projectId)] (section
    4.3): reject with [AlreadyRunningError] if the state is not [absent],
    with [EngineDownError] if the runtime is unreachable, otherwise
    transition to [building]. *)
Definition begin_start (p : string) (w : World) : Error + World :=
  match recorded w p with
  | absent =>
      if reachable w then
        inr {| handles := handles w ++
                 [{| projectId := p; runtimeId := containerName p; state := building |}];
               buffers := buffers w; reachable := reachable w; live := live w |}
      else inl EngineDownError
  | _ => inl AlreadyRunningError
  end.

(** Modelled from the spec: the second half of [start]: on success of build
    and run the state becomes [running], the container exists and a fresh
    buffer begins; on failure the state becomes [failed] and the captured
    output is returned. *)
Definition finish_start (p : string) (o : BuildOutcome) (w : World)
  : (Error + string) * World :=
  match o with
  | built =>
      (inr (containerName p),
       {| handles := transition p is_building running (handles w);
          buffers := <[p := []]> (buffers w);
          reachable := reachable w;
          live := {[containerName p]} ∪ live w |})
  | build_failed output =>
      (inl (BuildError output),
       {| handles := transition p is_building failed (handles w);
          buffers := buffers w; reachable := reachable w; live := live w |})
  end.

(** Modelled from the spec: [start(projectId)] of the lifecycle controller. *)
Definition start (p : string) (o : BuildOutcome) (w : World) : (Error + string) * World :=
  match begin_start p w with
  | inl e => (inl e, w)
  | inr w1 => finish_start p o w1
  end.

(** Modelled from the spec: [stop(projectId)] always attempts the underlying
    stop (which removes the container when the engine can be reached and is
    a success for an unknown container), resets the state to [absent] and
    clears the [LogBuffer]; adapter errors are swallowed on this path
    (section 7). *)
Definition stop (p : string) (w : World) : (Error + unit) * World :=
  (inr tt,
   {| handles := transition p any_state absent (handles w);
      buffers := delete p (buffers w);
      reachable := reachable w;
      live := if reachable w then live w ∖ {[containerName p]} else live w |}).

(** Modelled from the spec: [restart] is [stop] followed by [start]. *)
Definition restart (p : string) (o : BuildOutcome) (w : World) : (Error + string) * World :=
  start p o (stop p w).2.

(** Modelled from the spec: the status query with orphan detection: a
    recorded [running] whose container the runtime does not have is healed
    to [absent]. *)
Definition getStatus (p : string) (w : World) : State * World :=
  match recorded w p with
  | running =>
      if bool_decide (containerName p ∈ live w) then (running, w)
      else (absent,
            {| handles := transition p is_running absent (handles w);
               buffers := buffers w; reachable := reachable w; live := live w |})
  | s => (s, w)
  end.

(** Modelled from the spec: [logs] distinguishes engine unreachable,
    container not found and success with the buffered output. *)
Definition logs (p : string) (w : World) : Error + list string :=
  if reachable w then
    if bool_decide (containerName p ∈ live w) then inr (default [] (buffers w !! p))
    else inl NotRunningError
  else inl EngineDownError.

(** Modelled from the spec: what can happen between two observations: the
    lifecycle operations, serialized per project, and the moves of the
    environment (a container exits or disappears, the engine becomes
    reachable or not, a running container prints a line). *)
Inductive Step : World → World → Prop :=
| step_begin_start p w w' :
    begin_start p w = inr w' → Step w w'
| step_finish_start p o w :
    recorded w p = building → Step w (finish_start p o w).2
| step_stop p w :
    Step w (stop p w).2
| step_status p w :
    Step w (getStatus p w).2
| step_exit p w :
    Step w {| handles := transition p is_running exited (handles w);
              buffers := buffers w; reachable := reachable w; live := live w |}
| step_vanish p w :
    Step w {| handles := handles w; buffers := buffers w; reachable := reachable w;
              live := live w ∖ {[containerName p]} |}
| step_engine b w :
    Step w {| handles := handles w; buffers := buffers w; reachable := b; live := live w |}
| step_output p line w :
    Step w {| handles := handles w;
              buffers := <[p := default [] (buffers w !! p) ++ [line]]> (buffers w);
              reachable := reachable w; live := live w |}.

(** Modelled from the spec: the worlds the controller can be in. *)
Definition Reachable (w : World) : Prop := rtc Step init w.

(** Modelled from the spec: the central invariant, at most one non-[absent]
    handle per project. *)
Definition at_most_one (w : World) : Prop :=
  ∀ p, (length (active w p) ≤ 1)%nat.

End Controller.

(** ** Decimal text *)

Module Digits.

(** The characters ["0"] to ["9"], of which the text of [Date.now()] is
    made. *)
Definition is_digit (c : ascii) : bool :=
  let n := nat_of_ascii c in (48 <=? n)%nat && (n <=? 57)%nat.

Fixpoint all_digits (s : string) : bool :=
  match s with
  | EmptyString => true
  | String c s' => is_digit c && all_digits s'
  end.

End Digits.

(** ** The editor page over a browser session *)

Module Session.
Import Editor.

Section Session.

Variable BACKEND_URL : string.
Variable projectId : string.

(** The condition of the auto-refresh effect: the interval that calls
    [fetchLogs] is installed unless [!botRunning || dockerStatus !== "running"]. *)
Definition autoRefresh (s : EditorState) : bool :=
  negb (negb (botRunning s)
        || match dockerStatus s with running => false | _ => true end).

(** Whether [handleStartBot] finds the mark of a first start in
    [sessionStorage]. *)
Definition started (s : EditorState) : bool :=
  JS.truthy (sessionStorage s !! startedKey projectId).

(** What can happen to a mounted page: a click on "Start Bot" or "Stop
    Bot", the auto-start timer of [loadTree], a tick of the auto-refresh
    interval, the status check of the first effect; each comes with the
    answers of the back end.  A click calls the [handleStartBot] of the
    render on screen, which tests the current [dockerStatus]; the timer calls
    the one of the first render. *)
Inductive Event :=
| clickStart (r : FetchResult Detail) (rlogs : FetchResult LogsResponse)
| autoStart (r : FetchResult Detail) (rlogs : FetchResult LogsResponse)
| clickStop (r : FetchResult Detail)
| tick (r : FetchResult LogsResponse)
| statusCheck (r : FetchResult LogsResponse).

Definition handle (ev : Event) : Async unit :=
  match ev with
  | clickStart r rlogs =>
      bind (gets dockerStatus) (λ docker, handleStartBot BACKEND_URL projectId docker r rlogs)
  | autoStart r rlogs => autoStartTimer BACKEND_URL projectId r rlogs
  | clickStop r => handleStopBot BACKEND_URL projectId r
  | tick r => fetchLogs BACKEND_URL projectId r
  | statusCheck r => checkStatus BACKEND_URL projectId r
  end.

Fixpoint handleAll (evs : list Event) : Async unit :=
  match evs with
  | [] => ret tt
  | ev :: evs' => bind (handle ev) (λ _, handleAll evs')
  end.

End Session.

(** Whether an answer of the logs endpoint is read and carries the status
    [st]. *)
Definition says (st : LogsStatus) (r : FetchResult LogsResponse) : bool :=
  match r with
  | response true (json_value data) =>
      match status data, st with
      | Some success, success
      | Some docker_not_running, docker_not_running
      | Some container_not_running, container_not_running
      | Some status_error, status_error => true
      | _, _ => false
      end
  | _ => false
  end.

(** How often the syntax check was scheduled. *)
Definition is_syntax_timer (e : Effect) : bool :=
  match e with setTimeout fixSyntaxErrors _ => true | _ => false end.

Definition scheduled (es : list Effect) : nat := length (List.filter is_syntax_timer es).

Definition is_alert (e : Effect) : bool :=
  match e with alert _ => true | _ => false end.

Definition alerts (es : list Effect) : list Effect := List.filter is_alert es.

End Session.

(** ** The language of a file in the code editor *)

Module Language.

(** [c.toLowerCase()] on one character: the letters A to Z go to a to z;
    no other character becomes a letter of one of the extensions below. *)
Definition lower (c : ascii) : ascii :=
  let n := nat_of_ascii c in
  if (65 <=? n)%nat && (n <=? 90)%nat then ascii_of_nat (n + 32) else c.

(** [s.toLowerCase()] *)
Fixpoint toLowerCase (s : string) : string :=
  match s with
  | EmptyString => EmptyString
  | String c s' => String (lower c) (toLowerCase s')
  end.

(** [s.endsWith(suffix)]: some tail of [s] is [suffix]. *)
Fixpoint endsWith (s suffix : string) : bool :=
  String.eqb s suffix ||
  match s with
  | EmptyString => false
  | String _ s' => endsWith s' suffix
  end.

(** [getLanguageForPath]; [None] as argument is [null], [None] as result is
    [undefined]. *)
Definition getLanguageForPath (path : option string) : option string :=
  match path with
  | None => None
  | Some EmptyString => None
  | Some path =>
      let lower := toLowerCase path in
      if endsWith lower ".ts" then Some "typescript"
      else if endsWith lower ".tsx" then Some "typescript"
      else if endsWith lower ".js" then Some "javascript"
      else if endsWith lower ".jsx" then Some "javascript"
      else if endsWith lower ".json" then Some "json"
      else if endsWith lower ".md" || endsWith lower ".mdx" then Some "markdown"
      else if endsWith lower ".css" then Some "css"
      else if endsWith lower ".html" then Some "html"
      else None
  end.

(** Whether [p] is what is left of [suffix] after dropping one or more of
    its first characters. *)
Fixpoint proper_tail (p suffix : string) : bool :=
  match suffix with
  | EmptyString => false
  | String _ s' => String.eqb p s' || proper_tail p s'
  end.

(** The last character of a string. *)
Fixpoint lastChar (s : string) : option ascii :=
  match s with
  | EmptyString => None
  | String c EmptyString => Some c
  | String _ s' => lastChar s'
  end.

End Language.

(** ** The file side and the chat of the editor page *)

Module Chat.

Inductive Role := user | ai.

(** [interface ChatMessage] *)
Record ChatMessage := { id : string; role : Role; content : string }.

(** The fields of the answer of [/ai-assist] that [sendMessage] reads. *)
Record AiResponse := {
  response : option string;
  changes_applied : bool;
  summary : option string;
  changes : option (list string);
  auto_restarted : bool
}.

(** The readings of [Date.now()] in one run of [sendMessage], one for each
    place that makes an identifier. *)
Record Clock := {
  atUser : N; atThinking : N; atAnswer : N; atSummary : N;
  atChanges : N; atRestart : N; atError : N
}.

End Chat.

Module Page.
Import Tree.

(** The value of a property read from a plain object whose own properties
    are strings: a string, or something inherited from [Object.prototype]. *)
Inductive Value :=
| str (s : string)
| inherited_value.

Inductive Effect :=
| editor (e : Editor.Effect)
| put (url : string) (path : string) (content : Value)
| aiAssist (url : string) (project_id message : string)
           (file_tree : list BackendNode) (conversation_history : list Chat.ChatMessage)
| autoStart (ms : N)
| sleep (ms : N).

(** The body of the answer of the tree endpoint: [data.tree] may be
    missing. *)
Record TreeResponse := { tree_ : option (list BackendNode) }.

(** The body of the answer of the file endpoint. *)
Record FileResponse := { content : string }.

Record PageState := {
  editor_ : Editor.EditorState;
  tree : list BackendNode;
  selectedFilePath : option string;
  expandedFolders : gset string;
  contentsByPath : gmap string string;
  messages : list Chat.ChatMessage;
  chatInput : string;
  isAiThinking : bool;
  isRefreshing : bool;
  applicationId : string
}.

(** The state of a page that was just mounted, as the [useState] calls
    give it. *)
Definition initialState (ed : Editor.EditorState) : PageState :=
  {| editor_ := ed; tree := []; selectedFilePath := None;
     expandedFolders := {["src"]} ∪ {["src/commands"]} ∪ {["src/events"]};
     contentsByPath := ∅;
     messages :=
       [ {| Chat.id := "welcome"; Chat.role := Chat.ai;
            Chat.content := "Hi! I'm your coding assistant. Ask me about this project, request file edits, or generate snippets." |} ];
     chatInput := ""; isAiThinking := false; isRefreshing := false;
     applicationId := "" |}.

Definition Act (A : Type) : Type :=
  PageState → PageState * list Effect * Editor.Completion A.

Definition ret {A} (a : A) : Act A := λ s, (s, [], Editor.Normal a).

Definition throw {A} (message : string) : Act A := λ s, (s, [], Editor.Throw message).

Definition bind {A B} (m : Act A) (k : A → Act B) : Act B :=
  λ s,
    match m s with
    | (s1, e1, Editor.Normal a) => let '(s2, e2, c) := k a s1 in (s2, e1 ++ e2, c)
    | (s1, e1, Editor.Throw message) => (s1, e1, Editor.Throw message)
    end.

Definition try_catch {A} (m : Act A) (h : string → Act A) : Act A :=
  λ s,
    match m s with
    | (s1, e1, Editor.Normal a) => (s1, e1, Editor.Normal a)
    | (s1, e1, Editor.Throw message) =>
        let '(s2, e2, c) := h message s1 in (s2, e1 ++ e2, c)
    end.

Definition try_finally {A} (m : Act A) (f : Act unit) : Act A :=
  λ s,
    let '(s1, e1, c) := m s in
    let '(s2, e2, _) := f s1 in
    (s2, e1 ++ e2, c).

Definition emit (e : Effect) : Act unit := λ s, (s, [e], Editor.Normal tt).

Definition modify (f : PageState → PageState) : Act unit :=
  λ s, (f s, [], Editor.Normal tt).

Definition gets {A} (f : PageState → A) : Act A := λ s, (s, [], Editor.Normal (f s)).

Declare Scope act_scope.
Delimit Scope act_scope with act.
Notation "x <- m ;; k" := (bind m (λ x, k))
  (at level 100, m at next level, right associativity) : act_scope.
Notation "m ;; k" := (bind m (λ _, k))
  (at level 100, right associativity) : act_scope.
Local Open Scope act_scope.

(** A handler of the bot controls run inside the page. *)
Definition liftEditor {A} (m : Editor.Async A) : Act A :=
  λ s,
    let '(ed, es, c) := m (editor_ s) in
    ({| editor_ := ed; tree := tree s; selectedFilePath := selectedFilePath s;
        expandedFolders := expandedFolders s; contentsByPath := contentsByPath s;
        messages := messages s; chatInput := chatInput s;
        isAiThinking := isAiThinking s; isRefreshing := isRefreshing s;
        applicationId := applicationId s |},
     map editor es, c).

(** The React setters; those of [contentsByPath] and [messages] take an
    updater function, as in the source. *)
Definition setTree (v : list BackendNode) : Act unit :=
  modify (λ s, {| editor_ := editor_ s; tree := v; selectedFilePath := selectedFilePath s;
                  expandedFolders := expandedFolders s; contentsByPath := contentsByPath s;
                  messages := messages s; chatInput := chatInput s;
                  isAiThinking := isAiThinking s; isRefreshing := isRefreshing s;
                  applicationId := applicationId s |}).
Definition setSelectedFilePath (v : option string) : Act unit :=
  modify (λ s, {| editor_ := editor_ s; tree := tree s; selectedFilePath := v;
                  expandedFolders := expandedFolders s; contentsByPath := contentsByPath s;
                  messages := messages s; chatInput := chatInput s;
                  isAiThinking := isAiThinking s; isRefreshing := isRefreshing s;
                  applicationId := applicationId s |}).
Definition setExpandedFolders (v : gset string) : Act unit :=
  modify (λ s, {| editor_ := editor_ s; tree := tree s; selectedFilePath := selectedFilePath s;
                  expandedFolders := v; contentsByPath := contentsByPath s;
                  messages := messages s; chatInput := chatInput s;
                  isAiThinking := isAiThinking s; isRefreshing := isRefreshing s;
                  applicationId := applicationId s |}).
Definition setContentsByPath (f : gmap string string → gmap string string) : Act unit :=
  modify (λ s, {| editor_ := editor_ s; tree := tree s; selectedFilePath := selectedFilePath s;
                  expandedFolders := expandedFolders s; contentsByPath := f (contentsByPath s);
                  messages := messages s; chatInput := chatInput s;
                  isAiThinking := isAiThinking s; isRefreshing := isRefreshing s;
                  applicationId := applicationId s |}).
Definition setMessages (f : list Chat.ChatMessage → list Chat.ChatMessage) : Act unit :=
  modify (λ s, {| editor_ := editor_ s; tree := tree s; selectedFilePath := selectedFilePath s;
                  expandedFolders := expandedFolders s; contentsByPath := contentsByPath s;
                  messages := f (messages s); chatInput := chatInput s;
                  isAiThinking := isAiThinking s; isRefreshing := isRefreshing s;
                  applicationId := applicationId s |}).
Definition setChatInput (v : string) : Act unit :=
  modify (λ s, {| editor_ := editor_ s; tree := tree s; selectedFilePath := selectedFilePath s;
                  expandedFolders := expandedFolders s; contentsByPath := contentsByPath s;
                  messages := messages s; chatInput := v;
                  isAiThinking := isAiThinking s; isRefreshing := isRefreshing s;
                  applicationId := applicationId s |}).
Definition setIsAiThinking (v : bool) : Act unit :=
  modify (λ s, {| editor_ := editor_ s; tree := tree s; selectedFilePath := selectedFilePath s;
                  expandedFolders := expandedFolders s; contentsByPath := contentsByPath s;
                  messages := messages s; chatInput := chatInput s;
                  isAiThinking := v; isRefreshing := isRefreshing s;
                  applicationId := applicationId s |}).
Definition setIsRefreshing (v : bool) : Act unit :=
  modify (λ s, {| editor_ := editor_ s; tree := tree s; selectedFilePath := selectedFilePath s;
                  expandedFolders := expandedFolders s; contentsByPath := contentsByPath s;
                  messages := messages s; chatInput := chatInput s;
                  isAiThinking := isAiThinking s; isRefreshing := v;
                  applicationId := applicationId s |}).
Definition setApplicationId (v : string) : Act unit :=
  modify (λ s, {| editor_ := editor_ s; tree := tree s; selectedFilePath := selectedFilePath s;
                  expandedFolders := expandedFolders s; contentsByPath := contentsByPath s;
                  messages := messages s; chatInput := chatInput s;
                  isAiThinking := isAiThinking s; isRefreshing := isRefreshing s;
                  applicationId := v |}).

Definition state_of {A} (r : PageState * list Effect * Editor.Completion A) : PageState :=
  r.1.1.
Definition effects_of {A} (r : PageState * list Effect * Editor.Completion A) : list Effect :=
  r.1.2.
Definition completion_of {A} (r : PageState * list Effect * Editor.Completion A)
  : Editor.Completion A := r.2.
Definition value_of {A} (r : PageState * list Effect * Editor.Completion A) : option A :=
  match r.2 with Editor.Normal a => Some a | Editor.Throw _ => None end.

(** [await fetch(url)] and [await fetch(url, { method: "PUT", ... })] *)
Definition fetchGet {A} (url : string) (r : Editor.FetchResult A)
  : Act (bool * Editor.Json A) :=
  emit (editor (Editor.fetch_ Editor.GET url None)) ;;
  match r with
  | Editor.network_error message => throw message
  | Editor.response ok body => ret (ok, body)
  end.

Definition fetchPut {A} (url path : string) (content : Value) (r : Editor.FetchResult A)
  : Act (bool * Editor.Json A) :=
  emit (put url path content) ;;
  match r with
  | Editor.network_error message => throw message
  | Editor.response ok body => ret (ok, body)
  end.

Definition json {A} (body : Editor.Json A) : Act A :=
  match body with
  | Editor.json_value data => ret data
  | Editor.json_error message => throw message
  end.

Definition consoleLog (text : string) : Act unit :=
  emit (editor (Editor.console Editor.log text None)).
Definition consoleError (text : string) (e : string) : Act unit :=
  emit (editor (Editor.console Editor.error text (Some e))).

(** [!selectedFilePath]: [null] and the empty string are falsy. *)
Definition falsy (p : option string) : bool := negb (JS.truthy p).

(** [x || ""] on a value read from [contentsByPath]. *)
Definition or_empty (v : option Value) : Value :=
  match v with
  | Some (str EmptyString) | None => str ""
  | Some v => v
  end.

(** [messages.slice(-n)] *)
Definition slice_last {A} (n : nat) (l : list A) : list A := drop (length l - n) l.

(** [toggleFolder]: the new set of expanded folders. *)
Definition toggled (path : string) (expanded : gset string) : gset string :=
  if bool_decide (path ∈ expanded) then expanded ∖ {[path]} else expanded ∪ {[path]}.

Definition toggleFolder (path : string) : Act unit :=
  expanded <- gets expandedFolders ;;
  setExpandedFolders (toggled path expanded).

(** The auto-start timers among the effects of a handler. *)
Definition is_autoStart (e : Effect) : bool :=
  match e with autoStart _ => true | _ => false end.

Definition is_ai_message (m : Chat.ChatMessage) : bool :=
  match Chat.role m with Chat.ai => true | Chat.user => false end.

Definition mainFiles : list string := ["main.py"; "bot.py"; "src/bot.py"; "src/main.py"].

Definition newline : string := String (ascii_of_nat 10) "".

Section EditorPage.

Variable BACKEND_URL : string.
Variable projectId : string.

(** [encodeURIComponent], [String.prototype.trim] and the names that
    [Object.prototype] defines are the platform's. *)
Variable encodeURIComponent : string → string.
Variable trim : string → string.
Variable inherited : string → bool.

(** [contentsByPath[path]] *)
Definition getContent (m : gmap string string) (path : string) : option Value :=
  match m !! path with
  | Some v => Some (str v)
  | None => if inherited path then Some inherited_value else None
  end.

Definition fileUrl (path : string) : string :=
  BACKEND_URL +:+ "/projects/" +:+ projectId +:+ "/file?path=" +:+ encodeURIComponent path.

Definition readFileFromBackend (path : string) (r : Editor.FetchResult FileResponse)
  : Act string :=
  res <- fetchGet (fileUrl path) r ;;
  if negb res.1 then throw "Failed to fetch file"
  else
    data <- json res.2 ;;
    ret (content data).

Definition writeFileToBackend (path : string) (content : Value)
    (r : Editor.FetchResult unit) : Act unit :=
  res <- fetchPut (BACKEND_URL +:+ "/projects/" +:+ projectId +:+ "/file") path content r ;;
  if negb res.1 then throw "Failed to save file" else ret tt.

(** [loadFileContent]: [None] as result is [null]. *)
Definition loadFileContent (path : string) (r : Editor.FetchResult FileResponse)
  : Act (option string) :=
  try_catch
    (content <- readFileFromBackend path r ;;
     setContentsByPath (insert path content) ;;
     ret (Some content))
    (λ e, consoleError ("Failed to load " +:+ path +:+ ":") e ;; ret None).

(** The [onClick] of a file row of the explorer. *)
Definition clickFile (currentPath : string) (r : Editor.FetchResult FileResponse)
  : Act unit :=
  setSelectedFilePath (Some currentPath) ;;
  try_catch
    (content <- readFileFromBackend currentPath r ;;
     setContentsByPath (insert currentPath content))
    (λ e, consoleError "" e).

(** The [value] of the code editor. *)
Definition editorValue (s : PageState) : Value :=
  match selectedFilePath s with
  | Some (String c p) => or_empty (getContent (contentsByPath s) (String c p))
  | _ => str ""
  end.

(** The [onChange] of the code editor; [None] is [undefined]. *)
Definition onChange (value : option string) : Act unit :=
  let v := default "" value in
  selected <- gets selectedFilePath ;;
  match selected with
  | Some (String c p) => setContentsByPath (insert (String c p) v)
  | _ => ret tt
  end.

(** The [onClick] of "Save". *)
Definition clickSave (r : Editor.FetchResult unit) : Act unit :=
  selected <- gets selectedFilePath ;;
  match selected with
  | Some (String c p) =>
      contents <- gets contentsByPath ;;
      try_catch
        (writeFileToBackend (String c p) (or_empty (getContent contents (String c p))) r)
        (λ e, consoleError "" e ;; emit (editor (Editor.alert "Save failed")))
  | _ => ret tt
  end.

(** The loop of [loadTree] over the main files, left by [break] at the
    first one that is found. *)
Fixpoint autoLoad (nodes : list BackendNode) (fileNames : list string)
    (r : Editor.FetchResult FileResponse) : Act unit :=
  match fileNames with
  | [] => ret tt
  | fileName :: rest =>
      match findFileInTree nodes fileName with
      | Some fileNode =>
          consoleLog ("Auto-loading " +:+ fileName +:+ "...") ;;
          loadFileContent (path fileNode) r ;;
          setSelectedFilePath (Some (path fileNode))
      | None => autoLoad nodes rest r
      end
  end.

(** [loadTree], the first thing the page does.  [elapsed] is the text of the
    time measured, [applicationIdParam] and [autoStartParam] are what
    [urlParams.get] returns, [localStorage] is the browser's. *)
Definition loadTree (rtree : Editor.FetchResult TreeResponse)
    (rfile : Editor.FetchResult FileResponse) (elapsed : string)
    (applicationIdParam autoStartParam : option string)
    (localStorage : gmap string string) : Act unit :=
  try_catch
    (res <- fetchGet (BACKEND_URL +:+ "/projects/" +:+ projectId +:+ "/tree") rtree ;;
     if negb res.1 then throw "Failed to fetch project tree"
     else
       data <- json res.2 ;;
       setTree (default [] (tree_ data)) ;;
       consoleLog ("Tree loaded in " +:+ elapsed +:+ "ms") ;;
       autoLoad (default [] (tree_ data)) mainFiles rfile ;;
       let appId :=
         JS.or_else_opt applicationIdParam
           (JS.or_else_opt (localStorage !! ("bot_" +:+ projectId +:+ "_appId")) "") in
       let shouldAutoStart :=
         match autoStartParam with Some v => String.eqb v "true" | None => false end in
       setApplicationId appId ;;
       if shouldAutoStart then
         consoleLog "Auto-start flag detected, starting bot after files loaded..." ;;
         emit (autoStart 1000)
       else ret tt)
    (λ e, consoleError "" e).

Definition handleRefresh (rtree : Editor.FetchResult TreeResponse)
    (rlogs : Editor.FetchResult Editor.LogsResponse) : Act unit :=
  ed <- gets editor_ ;;
  setIsRefreshing true ;;
  try_finally
    (try_catch
       (res <- fetchGet (BACKEND_URL +:+ "/projects/" +:+ projectId +:+ "/tree") rtree ;;
        (if res.1 then
           data <- json res.2 ;;
           setTree (default [] (tree_ data))
         else ret tt) ;;
        if Editor.botRunning ed
           || match Editor.dockerStatus ed with Editor.running => true | _ => false end
        then liftEditor (Editor.fetchLogs BACKEND_URL projectId rlogs)
        else ret tt)
       (λ e, consoleError "" e))
    (setIsRefreshing false).

Definition without (thinkingId : string) (prev : list Chat.ChatMessage)
  : list Chat.ChatMessage :=
  List.filter (λ m, negb (String.eqb (Chat.id m) thinkingId)) prev.

Definition append (m : Chat.ChatMessage) (prev : list Chat.ChatMessage)
  : list Chat.ChatMessage := prev ++ [m].

(** The body of [if (data.changes_applied) { ... }] in [sendMessage]. *)
Definition applyChanges (clock : Chat.Clock) (data : Chat.AiResponse)
    (rtree : Editor.FetchResult TreeResponse)
    (rlogs rlogs' : Editor.FetchResult Editor.LogsResponse) : Act unit :=
  handleRefresh rtree rlogs ;;
  (if JS.truthy (Chat.summary data) then
     setMessages
       (append {| Chat.id := pretty (Chat.atSummary clock) +:+ "-summary";
                  Chat.role := Chat.ai;
                  Chat.content := "‚úÖ " +:+ default "" (Chat.summary data) |})
   else ret tt) ;;
  (match Chat.changes data with
   | Some (c :: cs) =>
       setMessages
         (append {| Chat.id := pretty (Chat.atChanges clock) +:+ "-changes";
                    Chat.role := Chat.ai;
                    Chat.content :=
                      "üîß Changes applied:" +:+ newline +:+
                      String.concat newline (map (λ c, "‚Ä¢ " +:+ c) (c :: cs)) |})
   | _ => ret tt
   end) ;;
  if Chat.auto_restarted data then
    setMessages
      (append {| Chat.id := pretty (Chat.atRestart clock) +:+ "-restart";
                 Chat.role := Chat.ai;
                 Chat.content := "‚úÖ Bot automatically restarted with new changes!" |}) ;;
    liftEditor (Editor.setBotRunning true) ;;
    emit (sleep 1500) ;;
    liftEditor (Editor.fetchLogs BACKEND_URL projectId rlogs')
  else ret tt.

Definition sendMessage (text : string) (clock : Chat.Clock)
    (r : Editor.FetchResult Chat.AiResponse)
    (rtree : Editor.FetchResult TreeResponse)
    (rlogs rlogs' : Editor.FetchResult Editor.LogsResponse) : Act unit :=
  let trimmed := trim text in
  thinking <- gets isAiThinking ;;
  history <- gets messages ;;
  file_tree <- gets tree ;;
  if negb (JS.truthy (Some trimmed)) || thinking then ret tt
  else
    let userMsg :=
      {| Chat.id := pretty (Chat.atUser clock) +:+ "-u"; Chat.role := Chat.user;
         Chat.content := trimmed |} in
    setMessages (append userMsg) ;;
    setChatInput "" ;;
    setIsAiThinking true ;;
    let thinkingId := pretty (Chat.atThinking clock) +:+ "-thinking" in
    let thinkingMsg :=
      {| Chat.id := thinkingId; Chat.role := Chat.ai; Chat.content := "ü§î Thinking..." |} in
    setMessages (append thinkingMsg) ;;
    try_finally
      (try_catch
         (emit (aiAssist (BACKEND_URL +:+ "/ai-assist") projectId trimmed file_tree
                  (slice_last 6 history)) ;;
          res <- match r with
                 | Editor.network_error message => throw message
                 | Editor.response ok body => ret (ok, body)
                 end ;;
          (if negb res.1 then throw "AI request failed" else ret tt) ;;
          data <- json res.2 ;;
          setMessages (without thinkingId) ;;
          setMessages
            (append {| Chat.id := pretty (Chat.atAnswer clock) +:+ "-a"; Chat.role := Chat.ai;
                       Chat.content :=
                         JS.or_else_opt (Chat.response data) "I've processed your request." |}) ;;
          if Chat.changes_applied data then
            applyChanges clock data rtree rlogs rlogs'
          else ret tt)
         (λ e,
            consoleError "" e ;;
            setMessages (without thinkingId) ;;
            setMessages
              (append {| Chat.id := pretty (Chat.atError clock) +:+ "-error";
                         Chat.role := Chat.ai;
                         Chat.content :=
                           "Sorry, I encountered an error processing your request. Please try again." |})))
      (setIsAiThinking false).

End EditorPage.

(** A step of a handler that completes and does nothing to the chat but add
    messages of the assistant at its end. *)
Definition adds_replies (m : Act unit) : Prop :=
  ∀ s, completion_of (m s) = Editor.Normal tt
       ∧ chatInput (state_of (m s)) = chatInput s
       ∧ isAiThinking (state_of (m s)) = isAiThinking s
       ∧ ∃ extra, messages (state_of (m s)) = messages s ++ extra
                  ∧ forallb is_ai_message extra = true.

End Page.

(** ** The pages that call [getUserId] *)

Module Pages.

(** [getUserId()] called from a handler, which runs in a browser: the
    identifier, the storage afterwards and what was logged. *)
Definition getUserId (e : User.Entropy) (localStorage : gmap string string)
  : string * gmap string string * list User.Console :=
  match User.getUserId e (Some localStorage) with
  | (userId, Some localStorage', logged) => (userId, localStorage', logged)
  | (userId, None, logged) => (userId, localStorage, logged)
  end.

(** [interface Command] of the page that creates a bot. *)
Record Command := { name : string; description : string }.

(** The fields of the form that [handleGenerate] reads. *)
Record Form := {
  botDescription : string;
  discordToken : string;
  applicationId : string;
  editedCommands : list Command;
  editedPrefix : string
}.

(** [interface Project] of the projects page. *)
Record Project := {
  id : string;
  project_name : string;
  project_description : string;
  status : string;
  created_at : string;
  modified_at : string;
  application_id : option string
}.

Inductive Effect :=
| generate (url : string) (form : Form) (user_id : string)
| list_ (url : string)
| delete_ (url : string)
| userConsole (c : User.Console)
| consoleLog (text : string)
| consoleError (text : string) (err : string)
| alert (message : string)
| push (url : string).

(** What becomes of the request of [handleGenerate]: the promise rejects;
    the answer is an error, with the outcome of [res.text()]; the answer is
    fine, with the outcome of [res.json()] and its [projectId]. *)
Inductive GenerateResult :=
| rejected (message : string)
| refused (text : Editor.Json string)
| generated (projectId : Editor.Json string).

Section Pages.

Variable BACKEND_URL : string.

(** [handleGenerate] of the page that creates a bot: the flag
    [isGenerating] and the storage afterwards, and the effects. *)
Definition handleGenerate (form : Form) (e : User.Entropy) (elapsed : string)
    (r : GenerateResult) (localStorage : gmap string string)
  : bool * gmap string string * list Effect :=
  let '(userId, localStorage1, logged) := getUserId e localStorage in
  let request :=
    map userConsole logged ++
    [consoleLog "Starting bot generation...";
     generate (BACKEND_URL +:+ "/generate") form userId] in
  let failed (message : string) :=
    (false, localStorage1,
     request ++ [consoleError "" message; alert (JS.or_else message "Generation failed")]) in
  match r with
  | rejected message => failed message
  | refused (Editor.json_error message) => failed message
  | refused (Editor.json_value msg) => failed (JS.or_else msg "Failed to generate project")
  | generated (Editor.json_error message) => failed message
  | generated (Editor.json_value projectId) =>
      (false,
       <["bot_" +:+ projectId +:+ "_appId" := applicationId form]> localStorage1,
       request ++
       [consoleLog ("Bot generated in " +:+ elapsed +:+ "s");
        push ("/editor/" +:+ projectId +:+ "?applicationId=" +:+ applicationId form
              +:+ "&autoStart=true")])
  end.

(** The body of the answer of the projects endpoint: [data.projects] may be
    missing. *)
Record ProjectsResponse := { projects_ : option (list Project) }.

Record ProjectsState := { projects : list Project; isLoading : bool }.

Definition fetchProjects (e : User.Entropy) (elapsed : string)
    (r : Editor.FetchResult ProjectsResponse)
    (s : ProjectsState) (localStorage : gmap string string)
  : ProjectsState * gmap string string * list Effect :=
  let '(userId, localStorage1, logged) := getUserId e localStorage in
  let request := map userConsole logged ++ [list_ (BACKEND_URL +:+ "/projects?user_id=" +:+ userId)] in
  match r with
  | Editor.network_error message =>
      ({| projects := projects s; isLoading := false |}, localStorage1,
       request ++ [consoleError "Failed to fetch projects:" message])
  | Editor.response false _ =>
      ({| projects := projects s; isLoading := false |}, localStorage1, request)
  | Editor.response true (Editor.json_error message) =>
      ({| projects := projects s; isLoading := false |}, localStorage1,
       request ++ [consoleError "Failed to fetch projects:" message])
  | Editor.response true (Editor.json_value data) =>
      ({| projects := default [] (projects_ data); isLoading := false |}, localStorage1,
       request ++ [consoleLog ("Projects loaded in " +:+ elapsed +:+ "ms")])
  end.

(** [handleDelete]; [confirmed] is the answer to [confirm(...)], and the
    second clock, time and answer are those of the [fetchProjects()] that
    follows a deletion. *)
Definition handleDelete (projectId : string) (confirmed : bool) (e : User.Entropy)
    (r : Editor.FetchResult unit)
    (e' : User.Entropy) (elapsed : string) (r' : Editor.FetchResult ProjectsResponse)
    (s : ProjectsState) (localStorage : gmap string string)
  : ProjectsState * gmap string string * list Effect :=
  if negb confirmed then (s, localStorage, [])
  else
    let '(userId, localStorage1, logged) := getUserId e localStorage in
    let request :=
      map userConsole logged ++
      [delete_ (BACKEND_URL +:+ "/projects/" +:+ projectId +:+ "?user_id=" +:+ userId)] in
    match r with
    | Editor.network_error message =>
        (s, localStorage1,
         request ++ [consoleError "Failed to delete project:" message;
                     alert "Failed to delete project"])
    | Editor.response false _ =>
        (s, localStorage1, request ++ [alert "Failed to delete project"])
    | Editor.response true _ =>
        let '(s2, localStorage2, listed) := fetchProjects e' elapsed r' s localStorage1 in
        (s2, localStorage2, request ++ listed)
    end.

End Pages.

End Pages.

(** * Properties *)

(** ** The anonymous user id *)

Section UserId.
Import User.

Example generateUserId_example :
  generateUserId {| now := 1730505600000; random36 := "0.k3j9x2m1q8z7abcdef" |}
  = "user_1730505600000_k3j9x2m1q8z7a".
Proof. vm_compute. reflexivity. Qed.

Example generateUserId_zero_draw :
  generateUserId {| now := 5; random36 := "0" |} = "user_5_".
Proof. vm_compute. reflexivity. Qed.

Lemma generateUserId_truthy e : JS.truthy (Some (generateUserId e)) = true.
Proof. reflexivity. Qed.

(** A stored identifier that is truthy is returned as it is, and nothing is
    written. *)
Lemma getUserId_existing e ls v :
  ls !! USER_ID_KEY = Some v → JS.truthy (Some v) = true →
  getUserId e (Some ls) = (v, Some ls, []).
Proof.
  intros Hv Ht. unfold getUserId. rewrite Hv, Ht. reflexivity.
Qed.

(** After any call in a browser the key holds the value returned, and that
    value is truthy. *)
Lemma getUserId_persists e ls :
  ∃ v ls', getUserId e (Some ls) = (v, Some ls', (getUserId e (Some ls)).2)
           ∧ ls' !! USER_ID_KEY = Some v ∧ JS.truthy (Some v) = true.
Proof.
  unfold getUserId.
  destruct (ls !! USER_ID_KEY) as [v|] eqn:Hv.
  - destruct (JS.truthy (Some v)) eqn:Ht; simpl.
    + exists v, ls. auto.
    + eexists _, _. split; [reflexivity|]. split; [apply lookup_insert_eq | reflexivity].
  - simpl. eexists _, _. split; [reflexivity|].
    split; [apply lookup_insert_eq | reflexivity].
Qed.

Lemma calls_existing es ls v :
  ls !! USER_ID_KEY = Some v → JS.truthy (Some v) = true →
  calls es (Some ls) = (repeat v (length es), Some ls).
Proof.
  intros Hv Ht. induction es as [|e es IH]; [reflexivity|].
  cbn [calls]. rewrite (getUserId_existing e ls v Hv Ht), IH. reflexivity.
Qed.

(** C9: without [window] the result is the empty string; in a browser every
    call of a series returns the same string; a first call on a storage
    without the key generates an identifier and stores it under
    ["botforge_user_id"]; a later call returns the stored value and leaves
    the storage as it is. *)
Theorem getUserId_stable :
  (∀ e, getUserId e None = ("", None, []))
  ∧ (∀ es ls v1 v2,
        v1 ∈ (calls es (Some ls)).1 → v2 ∈ (calls es (Some ls)).1 → v1 = v2)
  ∧ (∀ e ls, ls !! USER_ID_KEY = None →
        getUserId e (Some ls)
        = (generateUserId e, Some (<["botforge_user_id" := generateUserId e]> ls),
           [console_log "[UserID] Created new user ID:" (generateUserId e)]))
  ∧ (∀ e e' ls,
        let first := getUserId e (Some ls) in
        getUserId e' first.1.2 = (first.1.1, first.1.2, [])).
Proof.
  split; [reflexivity|]. split; [|split].
  - intros es ls v1 v2. destruct es as [|e es]; [inversion 1|].
    cbn [calls].
    destruct (getUserId_persists e ls) as (v & ls' & Heq & Hv & Ht).
    rewrite Heq, (calls_existing es ls' v Hv Ht). simpl.
    assert (Hall : ∀ x, x ∈ v :: repeat v (length es) → x = v).
    { intros x Hx. apply elem_of_cons in Hx as [->|Hx]; [reflexivity|].
      apply list_elem_of_In in Hx. eapply repeat_spec; eassumption. }
    intros H1 H2. rewrite (Hall _ H1), (Hall _ H2). reflexivity.
  - intros e ls Hnone. unfold getUserId. rewrite Hnone. reflexivity.
  - intros e e' ls first. subst first.
    destruct (getUserId_persists e ls) as (v & ls' & Heq & Hv & Ht).
    rewrite Heq. simpl. apply getUserId_existing; assumption.
Qed.

Lemma getUserId_stable_witness :
  "user_7_abc" ∈ (calls [ {| now := 7; random36 := "0.abc" |};
                         {| now := 8; random36 := "0.xyz" |} ] (Some ∅)).1
  ∧ getUserId {| now := 7; random36 := "0.abc" |} (Some ∅)
    = ("user_7_abc", Some (<["botforge_user_id" := "user_7_abc"]> ∅),
       [console_log "[UserID] Created new user ID:" "user_7_abc"])
  ∧ "user_7_abc" = "user_7_abc".
Proof.
  pose proof getUserId_stable as (_ & Hsame & Hfirst & _).
  assert (Hin : "user_7_abc" ∈ (calls [ {| now := 7; random36 := "0.abc" |};
                         {| now := 8; random36 := "0.xyz" |} ] (Some ∅)).1).
  { vm_compute. apply list_elem_of_here. }
  split; [exact Hin|]. split.
  - apply (Hfirst {| now := 7; random36 := "0.abc" |} ∅). reflexivity.
  - exact (Hsame _ _ _ _ Hin Hin).
Defined.

End UserId.

(** ** The search of the project tree *)

Section FindFile.
Import Tree.

(** Induction on a node with the hypothesis for each of its children. *)
Lemma BackendNode_children_ind (P : BackendNode → Prop) :
  (∀ n p ty, P (Node n p ty None)) →
  (∀ n p ty ch, Forall P ch → P (Node n p ty (Some ch))) →
  ∀ node, P node.
Proof.
  intros Hleaf Hinner.
  fix IH 1. intros [n p ty [ch|]]; [|apply Hleaf].
  apply Hinner.
  induction ch as [|c ch IHch]; constructor; [apply IH | exact IHch].
Qed.

(** The loop body in the shape of the source: the first [if], then the
    recursive call guarded by [node.type === "dir" && node.children]. *)
Lemma findFileInTree_body_eq t node :
  findFileInTree_body t node =
  if matches t node then Some node
  else match type node, children node with
       | dir, Some ch => findFileInTree ch t
       | _, _ => None
       end.
Proof.
  destruct node as [n p ty [ch|]]; cbn [findFileInTree_body type children];
    destruct (matches t _); try reflexivity; destruct ty; try reflexivity.
  induction ch as [|c ch IH]; [reflexivity|].
  cbn [findFileInTree]. rewrite <- IH. reflexivity.
Qed.

Lemma preorder_node_eq node :
  preorder_node node =
  node :: match type node, children node with
          | dir, Some ch => preorder ch
          | _, _ => []
          end.
Proof.
  destruct node as [n p [] [ch|]]; reflexivity.
Qed.

Lemma all_nodes_node_eq node :
  all_nodes_node node =
  node :: match children node with
          | Some ch => all_nodes ch
          | None => []
          end.
Proof.
  destruct node as [n p ty [ch|]]; reflexivity.
Qed.

Lemma find_app_first {A} (f : A → bool) (l1 l2 : list A) :
  List.find f (l1 ++ l2) =
  match List.find f l1 with Some x => Some x | None => List.find f l2 end.
Proof.
  induction l1 as [|a l1 IH]; [reflexivity|].
  simpl. destruct (f a); [reflexivity | exact IH].
Qed.

Lemma findFileInTree_body_find t node :
  findFileInTree_body t node = List.find (matches t) (preorder_node node).
Proof.
  induction node as [n p ty | n p ty ch IH] using BackendNode_children_ind;
    rewrite findFileInTree_body_eq, preorder_node_eq; cbn [List.find type children];
    destruct (matches t _); try reflexivity; destruct ty; try reflexivity.
  induction IH as [|c ch Hc _ IHch]; [reflexivity|].
  cbn [findFileInTree preorder]. rewrite find_app_first, Hc, IHch. reflexivity.
Qed.

Lemma findFileInTree_find nodes t :
  findFileInTree nodes t = List.find (matches t) (preorder nodes).
Proof.
  induction nodes as [|node rest IH]; [reflexivity|].
  cbn [findFileInTree preorder].
  rewrite find_app_first, findFileInTree_body_find, IH. reflexivity.
Qed.

Lemma find_first_split {A} (f : A → bool) (l : list A) x :
  List.find f l = Some x →
  ∃ before after, l = before ++ x :: after ∧ f x = true
                  ∧ ∀ y, y ∈ before → f y = false.
Proof.
  induction l as [|a l IH]; [discriminate|].
  simpl. destruct (f a) eqn:Ha.
  - intros [= ->]. exists [], l. split; [reflexivity|]. split; [exact Ha|].
    intros y Hy. inversion Hy.
  - intros Hx. destruct (IH Hx) as (b & c & -> & Hfx & Hb).
    exists (a :: b), c. split; [reflexivity|]. split; [exact Hfx|].
    intros y Hy. apply elem_of_cons in Hy as [->|Hy]; auto.
Qed.

Lemma find_none_iff {A} (f : A → bool) (l : list A) :
  List.find f l = None ↔ ∀ y, y ∈ l → f y = false.
Proof.
  induction l as [|a l IH]; simpl.
  - split; [intros _ y Hy; inversion Hy | reflexivity].
  - destruct (f a) eqn:Ha.
    + split; [discriminate|]. intros H. specialize (H a (list_elem_of_here _ _)). congruence.
    + rewrite IH. split.
      * intros H y Hy. apply elem_of_cons in Hy as [->|Hy]; auto.
      * intros H y Hy. apply H. apply list_elem_of_further, Hy.
Qed.

Lemma matches_spec t n :
  matches t n = true ↔ type n = file ∧ (name n = t ∨ path n = t).
Proof.
  unfold matches, is_file. rewrite andb_true_iff, orb_true_iff, !String.eqb_eq.
  destruct (type n); intuition congruence.
Qed.

(** On a tree whose files are leaves the walk visits every node. *)
Lemma preorder_all_nodes nodes :
  files_are_leaves nodes = true → preorder nodes = all_nodes nodes.
Proof.
  intros Hleaves.
  assert (Hwf : ∀ n, n ∈ all_nodes nodes → type n = file → children n = None).
  { intros n Hn Hty. unfold files_are_leaves in Hleaves.
    rewrite forallb_forall in Hleaves. apply list_elem_of_In, Hleaves in Hn.
    rewrite Hty in Hn. destruct (children n); [discriminate | reflexivity]. }
  clear Hleaves. revert Hwf.
  assert (Hnode : ∀ node,
             (∀ n, n ∈ all_nodes_node node → type n = file → children n = None) →
             preorder_node node = all_nodes_node node).
  { induction node as [n p ty | n p ty ch IH] using BackendNode_children_ind;
      intros Hwf; rewrite preorder_node_eq, all_nodes_node_eq; cbn [type children];
      [destruct ty; reflexivity|].
    destruct ty.
    - specialize (Hwf (Node n p file (Some ch))). cbn in Hwf.
      discriminate Hwf; [apply list_elem_of_here | reflexivity].
    - f_equal. rewrite all_nodes_node_eq in Hwf. cbn [children] in Hwf.
      assert (Hch : ∀ m, m ∈ all_nodes ch → type m = file → children m = None).
      { intros m Hm. apply Hwf, list_elem_of_further, Hm. }
      clear Hwf.
      induction IH as [|c ch Hc _ IHch]; [reflexivity|].
      cbn [preorder all_nodes]. cbn [all_nodes] in Hch. rewrite Hc, IHch; [reflexivity| |].
      + intros m Hm. apply Hch, elem_of_app. right. exact Hm.
      + intros m Hm. apply Hch, elem_of_app. left. exact Hm. }
  induction nodes as [|node rest IH]; intros Hwf; [reflexivity|].
  cbn [preorder all_nodes]. cbn [all_nodes] in Hwf. rewrite Hnode, IH; [reflexivity| |].
  - intros m Hm. apply Hwf, elem_of_app. right. exact Hm.
  - intros m Hm. apply Hwf, elem_of_app. left. exact Hm.
Qed.

Example findFileInTree_by_name :
  findFileInTree sample_tree "main.py" = Some (Node "main.py" "src/cogs/main.py" file None).
Proof. reflexivity. Qed.

Example findFileInTree_by_path :
  findFileInTree sample_tree "src/main.py" = Some (Node "main.py" "src/main.py" file None).
Proof. reflexivity. Qed.

Example findFileInTree_skips_directories :
  findFileInTree sample_tree "cogs" = None
  ∧ findFileInTree sample_tree "bot.py" = Some (Node "bot.py" "src/bot.py" file None).
Proof. split; reflexivity. Qed.

(** Children hung under a node of type ["file"] are not searched. *)
Example findFileInTree_children_of_a_file :
  findFileInTree [ Node "a" "a" file (Some [ Node "b" "a/b" file None ]) ] "b" = None.
Proof. reflexivity. Qed.

(** C10: [findFileInTree] returns the first node, in depth-first pre-order,
    that is a file whose name or path is the target; the result is [null]
    exactly when no file of the walk matches; a directory is never returned,
    and the walk goes through the children of directories (which, when files
    are leaves, is every node of the tree). *)
Theorem findFileInTree_first_match nodes t :
  findFileInTree nodes t = List.find (matches t) (preorder nodes)
  ∧ (∀ found, findFileInTree nodes t = Some found →
       type found = file ∧ (name found = t ∨ path found = t)
       ∧ ∃ before after, preorder nodes = before ++ found :: after
           ∧ ∀ n, n ∈ before → ¬ (type n = file ∧ (name n = t ∨ path n = t)))
  ∧ (findFileInTree nodes t = None ↔
       ∀ n, n ∈ preorder nodes → ¬ (type n = file ∧ (name n = t ∨ path n = t)))
  ∧ (files_are_leaves nodes = true →
       (findFileInTree nodes t = None ↔
          ∀ n, n ∈ all_nodes nodes → ¬ (type n = file ∧ (name n = t ∨ path n = t)))).
Proof.
  assert (Hnone : findFileInTree nodes t = None ↔
       ∀ n, n ∈ preorder nodes → ¬ (type n = file ∧ (name n = t ∨ path n = t))).
  { rewrite findFileInTree_find, find_none_iff. split.
    + intros H n Hn Hmatch. apply matches_spec in Hmatch. rewrite (H n Hn) in Hmatch.
      discriminate.
    + intros H n Hn. destruct (matches t n) eqn:Hm; [|reflexivity].
      exfalso. apply (H n Hn), matches_spec, Hm. }
  split; [apply findFileInTree_find|]. split; [|split; [exact Hnone|]].
  - intros found Hf. rewrite findFileInTree_find in Hf.
    destruct (find_first_split _ _ _ Hf) as (b & a & Heq & Hm & Hb).
    apply matches_spec in Hm as [Hty Hnm]. split; [exact Hty|]. split; [exact Hnm|].
    exists b, a. split; [exact Heq|]. intros n Hn Hmatch.
    apply matches_spec in Hmatch. rewrite (Hb n Hn) in Hmatch. discriminate.
  - intros Hleaves. rewrite <- (preorder_all_nodes nodes Hleaves). exact Hnone.
Qed.

Lemma findFileInTree_first_match_witness :
  files_are_leaves sample_tree = true
  ∧ findFileInTree sample_tree "bot.py" = Some (Node "bot.py" "src/bot.py" file None)
  ∧ type (Node "bot.py" "src/bot.py" file None) = file
  ∧ (findFileInTree sample_tree "cogs" = None ↔
       ∀ n, n ∈ all_nodes sample_tree → ¬ (type n = file ∧ (name n = "cogs" ∨ path n = "cogs"))).
Proof.
  split; [reflexivity|]. split; [reflexivity|]. split.
  - apply (findFileInTree_first_match sample_tree "bot.py"). reflexivity.
  - apply (findFileInTree_first_match sample_tree "cogs"). reflexivity.
Defined.

End FindFile.

(** ** The editor page *)

Section EditorFacts.
Import Editor.

Variable BACKEND_URL : string.
Variable projectId : string.

Local Abbreviation fetchLogs := (Editor.fetchLogs BACKEND_URL projectId).
Local Abbreviation checkStatus := (Editor.checkStatus BACKEND_URL projectId).
Local Abbreviation handleStartBot := (Editor.handleStartBot BACKEND_URL projectId).
Local Abbreviation startButton := (Editor.startButton BACKEND_URL projectId).
Local Abbreviation autoStartTimer := (Editor.autoStartTimer BACKEND_URL projectId).
Local Abbreviation handleStopBot := (Editor.handleStopBot BACKEND_URL projectId).
Local Abbreviation cleanup := (Editor.cleanup BACKEND_URL projectId).
Local Abbreviation polls := (Editor.polls BACKEND_URL projectId).
Local Abbreviation confettiKey := (Editor.confettiKey projectId).
Local Abbreviation latched := (Editor.latched projectId).

Local Abbreviation logsRequest :=
  (fetch_ GET (BACKEND_URL +:+ "/logs?project_id=" +:+ projectId) None).
Local Abbreviation stopRequest := (fetch_ POST (BACKEND_URL +:+ "/stop") (Some projectId)).
Local Abbreviation startRequest := (fetch_ POST (BACKEND_URL +:+ "/start") (Some projectId)).

Ltac fields :=
  cbn [fst snd negb andb orb app botRunning botLogs isStarting isStopping showLogs
       dockerStatus confettiShown sessionStorage].

Ltac run :=
  cbv [Editor.fetchLogs Editor.checkStatus Editor.handleStartBot Editor.handleStopBot
       Editor.cleanup try_catch try_finally bind fetch emit ret json throw modify gets
       setBotRunning setBotLogs setIsStarting setIsStopping setShowLogs setDockerStatus
       setConfettiShown updStorage getItem setItem removeItem
       state_of effects_of completion_of];
  fields.

Ltac run_around_fetchLogs :=
  cbv [Editor.handleStartBot try_catch try_finally bind fetch emit ret json throw
       modify gets setBotRunning setBotLogs setIsStarting setIsStopping setShowLogs
       setDockerStatus setConfettiShown updStorage getItem setItem removeItem
       state_of effects_of completion_of];
  fields.

Lemma or_else_empty x : JS.or_else x "" = x.
Proof. destruct x; reflexivity. Qed.

Lemma fired_app e1 e2 : fired (e1 ++ e2) = (fired e1 + fired e2)%nat.
Proof. unfold fired. rewrite List.filter_app, length_app. reflexivity. Qed.

(** [fetchLogs] catches everything it throws. *)
Lemma fetchLogs_completes r s : completion_of (fetchLogs r s) = Normal tt.
Proof.
  destruct r as [m | [] [data | m]]; try reflexivity.
  run. destruct (status data) as [[]|]; try reflexivity.
  destruct (_ && _); reflexivity.
Qed.

(** One poll: the signal fires exactly when the latch is open and the logs
    carry a marker, and the latch is closed afterwards when it was closed
    before or the signal fired. *)
Lemma fetchLogs_poll r s :
  fired (effects_of (fetchLogs r s)) = (if negb (latched s) && shows_marker r then 1 else 0)
  ∧ latched (state_of (fetchLogs r s)) = latched s || shows_marker r.
Proof.
  unfold Editor.latched.
  destruct r as [m | [] [data | m]]; cbn [shows_marker];
    rewrite ?andb_false_r, ?orb_false_r; try (split; reflexivity).
  run. rewrite or_else_empty.
  destruct (status data) as [[]|]; rewrite ?andb_false_r, ?orb_false_r;
    try (split; reflexivity).
  destruct (JS.truthy (sessionStorage s !! Editor.confettiKey projectId)) eqn:Hl;
    cbn [negb andb orb]; [split; [reflexivity | exact Hl]|].
  destruct (has_marker (logs data)); fields; [|split; [reflexivity | exact Hl]].
  split; [reflexivity|]. rewrite lookup_insert_eq. reflexivity.
Qed.

Lemma polls_cons r rs s :
  polls (r :: rs) s =
  (state_of (polls rs (state_of (fetchLogs r s))),
   effects_of (fetchLogs r s) ++ effects_of (polls rs (state_of (fetchLogs r s))),
   completion_of (polls rs (state_of (fetchLogs r s)))).
Proof.
  pose proof (fetchLogs_completes r s) as Hc.
  cbn [Editor.polls]. unfold bind at 1.
  destruct (Editor.fetchLogs BACKEND_URL projectId r s) as [[s1 e1] c1].
  unfold completion_of in Hc. cbn in Hc. subst c1. unfold state_of, effects_of, completion_of.
  cbn [fst snd]. destruct (Editor.polls BACKEND_URL projectId rs s1) as [[s2 e2] c2].
  reflexivity.
Qed.

(** A run of polls: with the latch closed nothing fires; with the latch
    open the signal fires once if some poll of the run shows a marker, and
    not at all otherwise. *)
Lemma polls_fired rs : ∀ s,
  fired (effects_of (polls rs s)) =
  (if negb (latched s) && existsb shows_marker rs then 1 else 0).
Proof.
  induction rs as [|r rs IH]; intros s.
  - rewrite andb_false_r. reflexivity.
  - rewrite polls_cons. unfold effects_of at 1. cbn [fst snd].
    rewrite fired_app, IH. destruct (fetchLogs_poll r s) as [-> ->].
    cbn [existsb].
    destruct (latched s), (shows_marker r), (existsb shows_marker rs); reflexivity.
Qed.

Lemma handleStopBot_completes r s : completion_of (handleStopBot r s) = Normal tt.
Proof.
  destruct r as [m | [] [d | m]]; reflexivity.
Qed.

Lemma cleanup_completes r s : completion_of (cleanup r s) = Normal tt.
Proof.
  destruct r as [m | ok b]; reflexivity.
Qed.

Lemma handleStopBot_ok d s :
  handleStopBot (response true d) s =
  ({| botRunning := false; botLogs := ""; isStarting := isStarting s;
      isStopping := false; showLogs := showLogs s; dockerStatus := dockerStatus s;
      confettiShown := false;
      sessionStorage := delete confettiKey (sessionStorage s) |},
   [stopRequest], Normal tt).
Proof. reflexivity. Qed.

(** What a poll leaves in [botLogs]: the old text, nothing, or the text of
    the answer. *)
Lemma fetchLogs_botLogs r s :
  botLogs (state_of (fetchLogs r s)) = botLogs s
  ∨ botLogs (state_of (fetchLogs r s)) = ""
  ∨ ∃ data, r = response true (json_value data) ∧ status data = Some success
            ∧ botLogs (state_of (fetchLogs r s)) = logs data.
Proof.
  destruct r as [m | [] [data | m]]; try (left; reflexivity).
  run. rewrite or_else_empty.
  destruct (status data) as [[]|] eqn:Hst; try (left; reflexivity);
    try (right; left; reflexivity).
  right; right. exists data. split; [reflexivity|]. split; [exact Hst|].
  destruct (_ && _); reflexivity.
Qed.

(** A click on "Stop Bot" that the back end answers with success opens the
    latch. *)
Lemma handleStopBot_opens_latch d s :
  latched (state_of (handleStopBot (response true d) s)) = false.
Proof.
  rewrite handleStopBot_ok. unfold Editor.latched, state_of. fields.
  rewrite lookup_delete_eq. reflexivity.
Qed.

(** The latch within a run and across a stop: a run of polls fires once if
    a poll shows a marker while the latch is open and never otherwise; after
    it fired no later poll of the run fires it again; after a stop that
    succeeds the next marker fires again. *)
Lemma readiness_latch :
  (∀ rs s, fired (effects_of (polls rs s)) =
           if negb (latched s) && existsb shows_marker rs then 1 else 0)
  ∧ (∀ r rs s, latched s = false → shows_marker r = true →
       fired (effects_of (fetchLogs r s)) = 1
       ∧ fired (effects_of (polls rs (state_of (fetchLogs r s)))) = 0)
  ∧ (∀ d r rs s, shows_marker r = true →
       fired (effects_of (polls (r :: rs) (state_of (handleStopBot (response true d) s)))) = 1).
Proof.
  split; [apply polls_fired|]. split.
  - intros r rs s Hopen Hmark.
    destruct (fetchLogs_poll r s) as [Hf Hl]. rewrite Hopen, Hmark in Hf, Hl.
    split; [exact Hf|]. rewrite polls_fired, Hl. reflexivity.
  - intros d r rs s Hmark. rewrite polls_fired, handleStopBot_opens_latch.
    cbn [existsb negb andb]. rewrite Hmark. reflexivity.
Qed.

Lemma confetti_started_keys_differ : confettiKey ≠ Editor.startedKey projectId.
Proof. unfold Editor.confettiKey, Editor.startedKey. cbn. discriminate. Qed.

(** A poll that finds the container gone ends the run on the page and
    leaves the latch as it is. *)
Lemma fetchLogs_gone r s :
  Session.says container_not_running r = true →
  botRunning (state_of (fetchLogs r s)) = false
  ∧ sessionStorage (state_of (fetchLogs r s)) = sessionStorage s.
Proof.
  destruct r as [m | [] [data | m]]; cbn [Session.says]; try discriminate.
  run. destruct (status data) as [[]|]; try discriminate. split; reflexivity.
Qed.

(** With the latch closed a start, whatever its outcome and whichever render
    made the function, fires nothing and leaves the latch closed. *)
Lemma handleStartBot_latched docker r rlogs s :
  latched s = true →
  fired (effects_of (handleStartBot docker r rlogs s)) = 0
  ∧ latched (state_of (handleStartBot docker r rlogs s)) = true.
Proof.
  intros Hl.
  destruct r as [m | [] [d | m]];
    try (destruct docker; (split; [reflexivity | exact Hl])).
  destruct docker; [| split; [reflexivity | exact Hl] |];
    run_around_fetchLogs;
    match goal with |- context [Editor.fetchLogs _ _ rlogs ?st] =>
      pose proof (fetchLogs_poll rlogs st) as [Hf Hk];
      pose proof (fetchLogs_completes rlogs st) as Hc;
      replace (latched st) with true in Hf, Hk by (symmetry; exact Hl);
      unfold state_of, effects_of, completion_of, Editor.latched in Hf, Hk, Hc;
      destruct (Editor.fetchLogs BACKEND_URL projectId rlogs st) as [[s1 e1] c1]
    end;
    cbn [fst snd negb andb orb] in Hf, Hk, Hc; subst c1; fields;
    unfold Editor.latched;
    destruct (JS.truthy (sessionStorage s1 !! Editor.startedKey projectId)); fields;
    rewrite ?lookup_insert_ne by (apply not_eq_sym, confetti_started_keys_differ);
    (split; [|exact Hk]);
    unfold fired in *; cbn [List.filter is_confetti length];
    rewrite ?List.filter_app, ?length_app; cbn [List.filter is_confetti length];
    rewrite Hf; reflexivity.
Qed.

(** C2: the readiness signal does not fire once in every run.  The latch is
    the key [confetti_<project>] of [sessionStorage], and only a click on
    "Stop Bot" that the back end answers with success removes it.  A run in
    which the signal fired and which ends because the container is found
    gone, or because the page unmounts and its cleanup stops the container,
    leaves the latch closed: in the run that follows, neither the poll of
    the start nor any later poll fires the signal, whatever markers the logs
    show.  After a successful stop, the same polls fire it once. *)
Theorem readiness_not_rearmed_unless_stopped :
  (∀ docker r rlogs r1 rgone rs s,
     shows_marker r1 = true → Session.says container_not_running rgone = true →
     botRunning (state_of (fetchLogs rgone (state_of (fetchLogs r1 s)))) = false
     ∧ fired (effects_of (handleStartBot docker r rlogs
                            (state_of (fetchLogs rgone (state_of (fetchLogs r1 s)))))) = 0
     ∧ fired (effects_of (polls rs
                (state_of (handleStartBot docker r rlogs
                             (state_of (fetchLogs rgone (state_of (fetchLogs r1 s)))))))) = 0)
  ∧ (∀ docker r rlogs r1 rstop rs s,
       shows_marker r1 = true →
       fired (effects_of (handleStartBot docker r rlogs
                (initialState (sessionStorage
                   (state_of (cleanup rstop (state_of (fetchLogs r1 s)))))))) = 0
       ∧ fired (effects_of (polls rs
                  (state_of (handleStartBot docker r rlogs
                     (initialState (sessionStorage
                        (state_of (cleanup rstop (state_of (fetchLogs r1 s)))))))))) = 0)
  ∧ (∀ d r1 r2 rs s,
       shows_marker r1 = true → shows_marker r2 = true →
       fired (effects_of (polls (r2 :: rs)
                (state_of (handleStopBot (response true d) (state_of (fetchLogs r1 s)))))) = 1).
Proof.
  assert (Hclosed : ∀ r1 s, shows_marker r1 = true → latched (state_of (fetchLogs r1 s)) = true).
  { intros r1 s Hm. destruct (fetchLogs_poll r1 s) as [_ ->]. rewrite Hm.
    apply orb_true_r. }
  split; [|split].
  - intros docker r rlogs r1 rgone rs s Hm Hgone.
    destruct (fetchLogs_gone rgone (state_of (fetchLogs r1 s)) Hgone) as [Hrun Hsto].
    split; [exact Hrun|].
    assert (Hl : latched (state_of (fetchLogs rgone (state_of (fetchLogs r1 s)))) = true).
    { unfold Editor.latched. rewrite Hsto. apply (Hclosed r1 s Hm). }
    destruct (handleStartBot_latched docker r rlogs _ Hl) as [Hf Hl'].
    split; [exact Hf|]. rewrite polls_fired, Hl'. reflexivity.
  - intros docker r rlogs r1 rstop rs s Hm.
    assert (Hl : latched (initialState (sessionStorage
                   (state_of (cleanup rstop (state_of (fetchLogs r1 s)))))) = true).
    { replace (state_of (cleanup rstop (state_of (fetchLogs r1 s))))
        with (state_of (fetchLogs r1 s)) by (destruct rstop; reflexivity).
      apply (Hclosed r1 s Hm). }
    destruct (handleStartBot_latched docker r rlogs _ Hl) as [Hf Hl'].
    split; [exact Hf|]. rewrite polls_fired, Hl'. reflexivity.
  - intros d r1 r2 rs s _ Hm2. rewrite polls_fired, handleStopBot_opens_latch.
    cbn [existsb negb andb]. rewrite Hm2. reflexivity.
Qed.

(** What the cleanup does: it sends one stop request, completes normally
    whatever becomes of the request and leaves the state alone; a request
    that rejects is logged with [console.warn]; an answer, whatever its
    status, is not looked at. *)
Lemma cleanup_swallows_stop_failure r s :
  completion_of (cleanup r s) = Normal tt
  ∧ state_of (cleanup r s) = s
  ∧ requests (effects_of (cleanup r s)) = [stopRequest]
  ∧ logged (effects_of (cleanup r s)) =
    match r with
    | network_error m => [console warn "Failed to stop container on cleanup:" (Some m)]
    | response _ _ => []
    end.
Proof.
  destruct r as [m | ok b]; repeat split; reflexivity.
Qed.

(** C3: a stop the back end refuses is swallowed by the cleanup, but not
    logged.  When the answer to the stop request is an HTTP error, which is
    how the back end reports that it could not stop the container, the
    cleanup completes normally and leaves the state alone, as the claim
    says, but writes neither a warning nor an error to the console; the
    click on "Stop Bot" logs that same answer with [console.error], and the
    cleanup itself logs with [console.warn] when the request cannot be
    sent. *)
Theorem cleanup_does_not_log_refused_stop b d m s :
  request_failed (response false b) = true
  ∧ completion_of (cleanup (response false b) s) = Normal tt
  ∧ state_of (cleanup (response false b) s) = s
  ∧ requests (effects_of (cleanup (response false b) s)) = [stopRequest]
  ∧ logged (effects_of (cleanup (response false b) s)) = []
  ∧ logged (effects_of (handleStopBot (response false (json_value d)) s))
    = [console error "" (Some (JS.or_else_opt (detail d) "Failed to stop bot"))]
  ∧ logged (effects_of (cleanup (network_error m) s))
    = [console warn "Failed to stop container on cleanup:" (Some m)].
Proof. repeat split; reflexivity. Qed.

(** C4, as amended: an answer of the logs endpoint carries one of four
    statuses or none; [fetchLogs] shows the logs on [success], raises the
    engine-down indicator on [docker_not_running], resets the running state
    on [container_not_running], and does nothing on [error] or on a missing
    status. *)
Theorem logs_outcomes_handling data s :
  completion_of (fetchLogs (response true (json_value data)) s) = Normal tt
  ∧ requests (effects_of (fetchLogs (response true (json_value data)) s)) = [logsRequest]
  ∧ match status data with
    | Some success =>
        botLogs (state_of (fetchLogs (response true (json_value data)) s)) = logs data
        ∧ botRunning (state_of (fetchLogs (response true (json_value data)) s)) = botRunning s
        ∧ dockerStatus (state_of (fetchLogs (response true (json_value data)) s)) = dockerStatus s
    | Some docker_not_running =>
        dockerStatus (state_of (fetchLogs (response true (json_value data)) s)) = not_running
        ∧ botLogs (state_of (fetchLogs (response true (json_value data)) s)) = ""
        ∧ botRunning (state_of (fetchLogs (response true (json_value data)) s)) = botRunning s
    | Some container_not_running =>
        botRunning (state_of (fetchLogs (response true (json_value data)) s)) = false
        ∧ botLogs (state_of (fetchLogs (response true (json_value data)) s)) = ""
        ∧ dockerStatus (state_of (fetchLogs (response true (json_value data)) s)) = dockerStatus s
    | Some status_error | None =>
        state_of (fetchLogs (response true (json_value data)) s) = s
    end.
Proof.
  split; [apply fetchLogs_completes|].
  run. rewrite or_else_empty.
  destruct (status data) as [[]|]; try (repeat split; reflexivity).
  destruct (_ && _); repeat split; reflexivity.
Qed.



(** The two calls of the source.  The button does nothing while the page
    shows the engine down; the timer sends the start request whatever the
    page shows, since the function it calls saw ["unknown"]. *)
Lemma startButton_engine_down r rlogs s :
  dockerStatus s = not_running → startButton r rlogs s = (s, [], Normal tt).
Proof.
  intros Hd. unfold Editor.startButton, Editor.startButtonDisabled, bind, gets, id.
  fields. rewrite Hd, orb_true_r, andb_false_r. reflexivity.
Qed.

Lemma autoStartTimer_sends r rlogs s :
  ∃ es, effects_of (autoStartTimer r rlogs s) = startRequest :: es.
Proof.
  unfold Editor.autoStartTimer.
  destruct r as [m | [] [d | m]]; try (eexists; reflexivity).
  run_around_fetchLogs.
  match goal with |- context [Editor.fetchLogs _ _ rlogs ?st] =>
    destruct (Editor.fetchLogs BACKEND_URL projectId rlogs st) as [[s1 e1] [[]|c1]]
  end; fields; try destruct (JS.truthy _); fields; eexists; reflexivity.
Qed.

(** C6: when the answer to a status or log query says that the container is
    not running, the running flag is reset, whatever it was, and the page
    offers "Start Bot" again. *)
Theorem container_gone_resets_running data s :
  status data = Some container_not_running →
  botRunning (state_of (fetchLogs (response true (json_value data)) s)) = false
  ∧ botLogs (state_of (fetchLogs (response true (json_value data)) s)) = ""
  ∧ rendersStartButton (state_of (fetchLogs (response true (json_value data)) s)) = true
  ∧ botRunning (state_of (checkStatus (response true (json_value data)) s)) = false
  ∧ rendersStartButton (state_of (checkStatus (response true (json_value data)) s)) = true.
Proof.
  intros Hst. unfold rendersStartButton. run. rewrite Hst. repeat split; reflexivity.
Qed.

(** What a start leaves in [botLogs]: what was there, or what the poll that
    follows a successful start put there. *)
Lemma handleStartBot_botLogs docker r rlogs s :
  botLogs (state_of (handleStartBot docker r rlogs s)) = botLogs s
  ∨ botLogs (state_of (handleStartBot docker r rlogs s)) = ""
  ∨ ∃ data, rlogs = response true (json_value data) ∧ status data = Some success
            ∧ botLogs (state_of (handleStartBot docker r rlogs s)) = logs data.
Proof.
  destruct r as [m | [] [d | m]];
    try (left; destruct docker; reflexivity).
  destruct docker; [| left; reflexivity |];
    run_around_fetchLogs;
    match goal with |- context [Editor.fetchLogs _ _ rlogs ?st] =>
      pose proof (fetchLogs_botLogs rlogs st) as Hb;
      pose proof (fetchLogs_completes rlogs st) as Hc;
      unfold state_of, completion_of in Hb, Hc;
      destruct (Editor.fetchLogs BACKEND_URL projectId rlogs st) as [[s1 e1] c1]
    end;
    cbn [fst snd botLogs] in Hb, Hc; subst c1; fields;
    destruct (JS.truthy _); fields; exact Hb.
Qed.

(** C8: a stop that succeeds empties the displayed logs, and after the start
    that follows, from the button or from the timer, the displayed logs are
    empty or are exactly the logs the back end reports for the new run:
    nothing shown before the stop is carried over. *)
Theorem stop_discards_logs d s :
  botLogs (state_of (handleStopBot (response true d) s)) = ""
  ∧ ∀ docker r rlogs,
      botLogs (state_of (handleStartBot docker r rlogs
                           (state_of (handleStopBot (response true d) s)))) = ""
      ∨ ∃ data, rlogs = response true (json_value data) ∧ status data = Some success
                ∧ botLogs (state_of (handleStartBot docker r rlogs
                                       (state_of (handleStopBot (response true d) s))))
                  = logs data.
Proof.
  split; [reflexivity|]. intros docker r rlogs.
  destruct (handleStartBot_botLogs docker r rlogs
              (state_of (handleStopBot (response true d) s)))
    as [H | [H | H]]; [left; rewrite H; reflexivity | left; exact H | right; exact H].
Qed.

End EditorFacts.

(** ** The lifecycle controller *)

Section ControllerFacts.
Import Controller.

Local Abbreviation selected q := (λ h, of_project q h && non_absent h).

Lemma active_nil_absent w p : recorded w p = absent ↔ active w p = [].
Proof.
  unfold recorded. destruct (active w p) as [|h hs] eqn:Ha; [tauto|].
  split; [|discriminate]. intros Hst.
  assert (Hin : In h (active w p)) by (rewrite Ha; left; reflexivity).
  apply List.filter_In in Hin as [_ Hsel]. apply andb_true_iff in Hsel as [_ Hn].
  unfold non_absent in Hn. rewrite Hst in Hn. discriminate.
Qed.

(** A change of the handles that keeps the project of each and revives none
    cannot add a live handle. *)
Lemma selected_map_le (f : ContainerHandle → ContainerHandle) q hs :
  (∀ h, projectId (f h) = projectId h) →
  (∀ h, non_absent (f h) = true → non_absent h = true) →
  (length (List.filter (selected q) (map f hs)) ≤ length (List.filter (selected q) hs))%nat.
Proof.
  intros Hp Hn. induction hs as [|h hs IH]; [reflexivity|].
  cbn [map List.filter]. unfold of_project in *. rewrite Hp.
  destruct (String.eqb (projectId h) q); cbn [andb]; [|exact IH].
  destruct (non_absent (f h)) eqn:Hf.
  - rewrite (Hn h Hf). cbn [length]. lia.
  - destruct (non_absent h); cbn [length]; lia.
Qed.

Lemma transition_le p from to q hs :
  (to = absent ∨ ∀ st, from st = true → st ≠ absent) →
  (length (List.filter (selected q) (transition p from to hs))
   ≤ length (List.filter (selected q) hs))%nat.
Proof.
  intros Hok. apply selected_map_le.
  - intros h. destruct (of_project p h && from (state h)); reflexivity.
  - intros h. destruct (of_project p h && from (state h)) eqn:Hsel; [|tauto].
    apply andb_true_iff in Hsel as [_ Hfrom]. unfold non_absent. cbn [state].
    destruct Hok as [-> | Hok]; [discriminate|].
    specialize (Hok _ Hfrom). destruct (state h); congruence.
Qed.

Lemma transition_preserves p from to w w' :
  (to = absent ∨ ∀ st, from st = true → st ≠ absent) →
  handles w' = transition p from to (handles w) →
  at_most_one w → at_most_one w'.
Proof.
  intros Hok Hh Hinv q. unfold active. rewrite Hh.
  etransitivity; [apply transition_le, Hok | apply Hinv].
Qed.

Lemma same_handles_preserves w w' :
  handles w' = handles w → at_most_one w → at_most_one w'.
Proof. intros Hh Hinv q. unfold active. rewrite Hh. apply Hinv. Qed.

Lemma begin_start_preserves p w w' :
  begin_start p w = inr w' → at_most_one w → at_most_one w'.
Proof.
  unfold begin_start. destruct (recorded w p) eqn:Hrec; try discriminate.
  destruct (reachable w); [|discriminate]. intros [= <-] Hinv q.
  unfold active. cbn [handles]. rewrite List.filter_app, length_app.
  cbn [List.filter]. unfold of_project at 2. cbn [projectId].
  destruct (String.eqb p q) eqn:Hpq; cbn [andb non_absent state length].
  - apply String.eqb_eq in Hpq as <-. apply active_nil_absent in Hrec.
    unfold active in Hrec. rewrite Hrec. reflexivity.
  - rewrite Nat.add_0_r. apply Hinv.
Qed.

Lemma step_preserves w w' : Step w w' → at_most_one w → at_most_one w'.
Proof.
  intros Hstep Hinv. destruct Hstep as [p w w' Hb | p o w Hrec | p w | p w | p w | p w | b w | p l w].
  - eapply begin_start_preserves; eassumption.
  - destruct o; (eapply (transition_preserves p is_building); [|reflexivity|exact Hinv]);
      right; intros [] Hst; discriminate.
  - eapply (transition_preserves p any_state absent); [left| |exact Hinv]; reflexivity.
  - unfold getStatus. destruct (recorded w p); try exact Hinv.
    destruct (bool_decide _); [exact Hinv|].
    eapply (transition_preserves p is_running absent); [left| |exact Hinv]; reflexivity.
  - eapply (transition_preserves p is_running exited); [|reflexivity|exact Hinv].
    right; intros [] Hst; discriminate.
  - eapply same_handles_preserves; [reflexivity | exact Hinv].
  - eapply same_handles_preserves; [reflexivity | exact Hinv].
  - eapply same_handles_preserves; [reflexivity | exact Hinv].
Qed.

Lemma reachable_at_most_one w : Reachable w → at_most_one w.
Proof.
  revert w. apply (rtc_ind_r at_most_one).
  - intros q. cbn. lia.
  - intros w1 w2 _ Hstep IH. eapply step_preserves; eassumption.
Qed.

Lemma start_rejected_when_recorded p o w :
  recorded w p ≠ absent → start p o w = (inl AlreadyRunningError, w).
Proof.
  intros Hrec. unfold start, begin_start.
  destruct (recorded w p); [congruence | reflexivity..].
Qed.


Lemma transition_absent_none p hs :
  List.filter (selected p) (transition p any_state absent hs) = [].
Proof.
  induction hs as [|h hs IH]; [reflexivity|].
  cbn [transition map List.filter]. rewrite andb_true_r.
  destruct (of_project p h) eqn:Hp.
  - unfold of_project at 1. cbn [projectId non_absent state]. rewrite andb_false_r. exact IH.
  - rewrite Hp. cbn [andb]. exact IH.
Qed.

Lemma transition_absent_twice p hs :
  transition p any_state absent (transition p any_state absent hs)
  = transition p any_state absent hs.
Proof.
  unfold transition. rewrite map_map. apply map_ext. intros h.
  rewrite !andb_true_r. destruct (of_project p h) eqn:Hp.
  - unfold of_project. cbn [projectId]. unfold of_project in Hp. rewrite Hp. reflexivity.
  - rewrite Hp. reflexivity.
Qed.

Lemma stop_twice p w : stop p (stop p w).2 = stop p w.
Proof.
  unfold stop. cbn [snd handles buffers reachable live]. f_equal.
  rewrite transition_absent_twice, delete_delete_eq.
  destruct (reachable w); [rewrite difference_twice_L|]; reflexivity.
Qed.

Lemma stop_recorded_absent p w : recorded (stop p w).2 p = absent.
Proof. apply active_nil_absent. apply transition_absent_none. Qed.

Lemma stop_init p : stop p init = (inr tt, init).
Proof.
  unfold stop, init. cbn [handles buffers reachable live transition map].
  rewrite delete_empty, empty_difference_L. reflexivity.
Qed.

(** After a restart whose build succeeds the buffer of the project is the
    empty one of the new run. *)
Lemma restart_fresh_buffer p w :
  reachable w = true →
  (restart p built w).1 = inr (containerName p)
  ∧ buffers (restart p built w).2 !! p = Some []
  ∧ logs p (restart p built w).2 = inr [].
Proof.
  intros Hup. unfold restart, start, begin_start.
  assert (Hrec : recorded (stop p w).2 p = absent).
  { apply active_nil_absent. apply transition_absent_none. }
  rewrite Hrec. cbn [stop snd reachable]. rewrite Hup.
  unfold logs. cbn [finish_start fst snd buffers reachable live].
  rewrite lookup_insert_eq, bool_decide_eq_true_2 by set_solver.
  repeat split; reflexivity.
Qed.

(** C1: in every world the controller can reach, each project has at most
    one handle in a non-[absent] state; and [start] on a project recorded as
    [running] is rejected with [AlreadyRunningError] and changes nothing:
    no handle is added and the engine holds the same containers. *)
Theorem at_most_one_active_handle w :
  Reachable w →
  at_most_one w
  ∧ ∀ p o, recorded w p = running → start p o w = (inl AlreadyRunningError, w).
Proof.
  intros Hr. split; [apply reachable_at_most_one, Hr|].
  intros p o Hrec. apply start_rejected_when_recorded. rewrite Hrec. discriminate.
Qed.

End ControllerFacts.

(** ** Stopping twice *)

(** C7: the controller's [stop] returns success in every world, for a
    project in any state and for one that never started; doing it a second
    time changes nothing more; and on the page neither [handleStopBot] nor
    the unmount cleanup ever throws, whatever the back end answers, the
    second time as the first. *)
Theorem stop_is_idempotent :
  (∀ p w, (Controller.stop p w).1 = inr tt
          ∧ Controller.recorded (Controller.stop p w).2 p = Controller.absent
          ∧ Controller.stop p (Controller.stop p w).2 = Controller.stop p w)
  ∧ (∀ p, Controller.stop p Controller.init = (inr tt, Controller.init))
  ∧ (∀ url pid r1 r2 s,
       Editor.completion_of (Editor.handleStopBot url pid r1 s) = Editor.Normal tt
       ∧ Editor.completion_of
           (Editor.handleStopBot url pid r2
              (Editor.state_of (Editor.handleStopBot url pid r1 s))) = Editor.Normal tt
       ∧ Editor.completion_of (Editor.cleanup url pid r1 s) = Editor.Normal tt).
Proof.
  split; [|split].
  - intros p w. split; [reflexivity|]. split; [apply stop_recorded_absent | apply stop_twice].
  - apply stop_init.
  - intros url pid r1 r2 s. split; [apply handleStopBot_completes|].
    split; [apply handleStopBot_completes | apply cleanup_completes].
Qed.

(** ** Starting with the engine down *)


(** ** The statements at concrete inputs *)

Section Instances.
Import Editor.

Local Abbreviation url := "http://localhost:8001".
Local Abbreviation pid := "proj-1".

Local Abbreviation ready :=
  (response true (json_value {| project_id := pid; logs := "Bot logged in as: Robin#0001";
                                status := Some success; error_ := None |})).

Local Abbreviation gone :=
  (response true (json_value {| project_id := pid; logs := "";
                                status := Some container_not_running; error_ := None |})).

Local Abbreviation live_page :=
  {| botRunning := true; botLogs := "Starting bot..."; isStarting := false;
     isStopping := false; showLogs := true; dockerStatus := running;
     confettiShown := false; sessionStorage := ∅ |}.

Local Abbreviation engine_down :=
  {| Controller.handles := []; Controller.buffers := ∅; Controller.reachable := false;
     Controller.live := ∅ |}.

Lemma readiness_not_rearmed_unless_stopped_witness :
  shows_marker ready = true
  ∧ Session.says container_not_running gone = true
  ∧ fired (effects_of (fetchLogs url pid ready live_page)) = 1
  ∧ fired (effects_of
             (polls url pid [ready; ready]
                (state_of (handleStartBot url pid running
                             (response true (json_value {| detail := None |})) ready
                             (state_of (fetchLogs url pid gone
                                          (state_of (fetchLogs url pid ready live_page)))))))) = 0
  ∧ fired (effects_of
             (polls url pid [ready; ready]
                (state_of (handleStartBot url pid unknown
                             (response true (json_value {| detail := None |})) ready
                             (initialState (sessionStorage
                                (state_of (cleanup url pid (response true (json_error ""))
                                   (state_of (fetchLogs url pid ready live_page)))))))))) = 0
  ∧ fired (effects_of
             (polls url pid [ready; ready]
                (state_of (handleStopBot url pid (response true (json_error ""))
                             (state_of (fetchLogs url pid ready live_page)))))) = 1.
Proof.
  split; [reflexivity|]. split; [reflexivity|]. split; [reflexivity|].
  pose proof (readiness_not_rearmed_unless_stopped url pid) as (Hcrash & Hunmount & Hstop).
  split; [|split].
  - apply (Hcrash running (response true (json_value {| detail := None |})) ready
                  ready gone [ready; ready] live_page); reflexivity.
  - apply (Hunmount unknown (response true (json_value {| detail := None |})) ready
                    ready (response true (json_error "")) [ready; ready] live_page);
      reflexivity.
  - apply (Hstop (json_error "") ready ready [ready] live_page); reflexivity.
Defined.


Lemma container_gone_resets_running_witness :
  botRunning live_page = true
  ∧ botRunning (state_of (fetchLogs url pid gone live_page)) = false
  ∧ botRunning (state_of (checkStatus url pid gone live_page)) = false.
Proof.
  split; [reflexivity|].
  pose proof (container_gone_resets_running url pid
                {| project_id := pid; logs := ""; status := Some container_not_running;
                   error_ := None |} live_page eq_refl) as (H1 & _ & _ & H2 & _).
  split; [exact H1 | exact H2].
Defined.

(** The back end answers the stop request of the cleanup with an error
    status: [handleStopBot] reports that answer as a failure, the cleanup
    writes nothing to the console, so not every failed stop is logged. *)
Example cleanup_failed_stop_not_logged :
  request_failed (response false (json_value {| detail := Some "Docker is not running" |}))
  = true
  ∧ effects_of (handleStopBot url pid
                  (response false (json_value {| detail := Some "Docker is not running" |}))
                  live_page)
    = [fetch_ POST "http://localhost:8001/stop" (Some "proj-1");
       console error "" (Some "Docker is not running");
       alert "Docker is not running"]
  ∧ logged (effects_of (cleanup url pid
                  (response false (json_value {| detail := Some "Docker is not running" |}))
                  live_page)) = []
  ∧ ¬ (∀ r s, request_failed r = true → logged (effects_of (cleanup url pid r s)) ≠ []).
Proof.
  split; [reflexivity|]. split; [reflexivity|]. split; [reflexivity|].
  intros H.
  apply (H (response false (json_value {| detail := Some "Docker is not running" |}))
           live_page); reflexivity.
Qed.

(** C4, the claim as stated fails: an answer with status ["error"] is none
    of the three outcomes; [fetchLogs] takes no handling path for it, and
    [checkStatus] treats it as it treats a container that is not running. *)
Lemma logs_status_error_is_a_fourth_outcome :
  ¬ (∀ data : LogsResponse,
       status data = Some docker_not_running
       ∨ status data = Some container_not_running
       ∨ status data = Some success)
  ∧ fetchLogs url pid
      (response true (json_value {| project_id := pid; logs := "partial";
                                    status := Some status_error; error_ := Some "timeout" |}))
      live_page
    = (live_page, [fetch_ GET "http://localhost:8001/logs?project_id=proj-1" None], Normal tt)
  ∧ checkStatus url pid
      (response true (json_value {| project_id := pid; logs := "partial";
                                    status := Some status_error; error_ := Some "timeout" |}))
      live_page
    = checkStatus url pid gone live_page.
Proof.
  split; [|split; reflexivity].
  intros H.
  destruct (H {| project_id := pid; logs := "partial"; status := Some status_error;
                 error_ := Some "timeout" |}) as [Hs | [Hs | Hs]]; discriminate Hs.
Qed.

(** A run that ends because the container is gone, not by a stop, leaves
    the latch closed: the run after it does not fire. *)
Example run_after_a_crash_does_not_fire :
  fired (effects_of
           (polls url pid [ready]
              (state_of (handleStartBot url pid running
                           (response true (json_value {| detail := None |}))
                           ready
                           (state_of (polls url pid [ready; gone] live_page)))))) = 0.
Proof. reflexivity. Qed.

(** The three handling paths of [fetchLogs] lead to three different
    states. *)
Example logs_outcomes_are_told_apart :
  let on st text :=
    state_of (fetchLogs url pid
                (response true (json_value {| project_id := pid; logs := text;
                                              status := Some st; error_ := None |}))
                live_page) in
  (botRunning (on success "up"), dockerStatus (on success "up"), botLogs (on success "up"))
    = (true, running, "up")
  ∧ (botRunning (on docker_not_running ""), dockerStatus (on docker_not_running ""),
     botLogs (on docker_not_running "")) = (true, not_running, "")
  ∧ (botRunning (on container_not_running ""), dockerStatus (on container_not_running ""),
     botLogs (on container_not_running "")) = (false, running, "").
Proof. repeat split; reflexivity. Qed.

End Instances.

Section ControllerInstances.
Import Controller.

Lemma at_most_one_active_handle_witness :
  Reachable (start "proj-1" built init).2
  ∧ recorded (start "proj-1" built init).2 "proj-1" = running
  ∧ start "proj-1" built (start "proj-1" built init).2
    = (inl AlreadyRunningError, (start "proj-1" built init).2)
  ∧ at_most_one (start "proj-1" built init).2.
Proof.
  assert (Hr : Reachable (start "proj-1" built init).2).
  { eapply rtc_l; [apply (step_begin_start "proj-1" init _ eq_refl)|].
    eapply rtc_l; [apply (step_finish_start "proj-1" built); reflexivity|].
    apply rtc_refl. }
  split; [exact Hr|]. split; [reflexivity|].
  pose proof (at_most_one_active_handle _ Hr) as [Hinv Hrej].
  split; [apply Hrej; reflexivity | exact Hinv].
Defined.

End ControllerInstances.

(** * Further properties of the sources *)

(** ** lib/user.ts *)

Section UserIdMore.
Import User Digits.

(** X1: after [clearUserId] the next [getUserId] generates a new identifier
    and stores it; the other keys of the storage are as before. *)
Theorem clearUserId_then_getUserId e ls :
  getUserId e (clearUserId (Some ls))
  = (generateUserId e, Some (<[USER_ID_KEY := generateUserId e]> ls),
     [console_log "[UserID] Created new user ID:" (generateUserId e)]).
Proof.
  unfold clearUserId, getUserId. rewrite lookup_delete_eq. cbn [JS.truthy negb].
  rewrite insert_delete_eq. reflexivity.
Qed.

(** X2: [getUserId] returns the empty string only where there is no
    [window]: in a browser the identifier is never empty. *)
Theorem getUserId_empty_iff_no_window e env :
  (getUserId e env).1.1 = "" ↔ env = None.
Proof.
  destruct env as [ls|]; [|split; reflexivity].
  split; [|discriminate]. intros Hempty. exfalso.
  destruct (getUserId_persists e ls) as (v & ls' & Heq & _ & Ht).
  rewrite Heq in Hempty. cbn in Hempty. subst v. discriminate Ht.
Qed.

(** X3: [getUserId] writes no key of [localStorage] but its own. *)
Theorem getUserId_writes_only_its_key e ls k :
  k ≠ USER_ID_KEY →
  ∃ ls', (getUserId e (Some ls)).1.2 = Some ls' ∧ ls' !! k = ls !! k.
Proof.
  intros Hk. unfold getUserId. destruct (negb _).
  - eexists. split; [reflexivity|]. apply lookup_insert_ne. congruence.
  - eexists. split; reflexivity.
Qed.

Lemma getUserId_writes_only_its_key_witness :
  ∃ ls', (getUserId {| now := 7; random36 := "0.abc" |}
            (Some (<["theme" := "dark"]> ∅))).1.2 = Some ls'
         ∧ ls' !! "theme" = (<["theme" := "dark"]> ∅ : gmap string string) !! "theme".
Proof.
  apply (getUserId_writes_only_its_key {| now := 7; random36 := "0.abc" |}
           (<["theme" := "dark"]> ∅) "theme").
  discriminate.
Defined.

Lemma pretty_N_char_digit x : is_digit (pretty_N_char x) = true.
Proof. unfold pretty_N_char. repeat case_match; reflexivity. Qed.

Lemma pretty_N_go_digits x : ∀ s, all_digits s = true → all_digits (pretty_N_go x s) = true.
Proof.
  induction (N.lt_wf_0 x) as [x _ IH]. intros s Hs.
  destruct (decide (x = 0)%N) as [->|Hx]; [rewrite pretty_N_go_0; exact Hs|].
  rewrite pretty_N_go_step by lia. apply IH; [apply N.div_lt; lia|].
  cbn [all_digits]. rewrite pretty_N_char_digit, Hs. reflexivity.
Qed.

Lemma pretty_N_digits (x : N) : all_digits (pretty x) = true.
Proof.
  unfold pretty, pretty_N. case_decide; [reflexivity|].
  apply pretty_N_go_digits. reflexivity.
Qed.

(** Two digit strings followed by an underscore and anything are equal as
    wholes only if the digit strings are. *)
Lemma digits_underscore_inj a : ∀ b r r',
  all_digits a = true → all_digits b = true →
  a +:+ String "_" r = b +:+ String "_" r' → a = b ∧ r = r'.
Proof.
  induction a as [|c a IH]; intros [|c' b] r r' Ha Hb Heq; cbn in *.
  - injection Heq as ->. split; reflexivity.
  - injection Heq as <- _. apply andb_true_iff in Hb as [Hc _]. discriminate Hc.
  - injection Heq as -> _. apply andb_true_iff in Ha as [Hc _]. discriminate Hc.
  - injection Heq as -> Heq. apply andb_true_iff in Ha as [_ Ha].
    apply andb_true_iff in Hb as [_ Hb].
    destruct (IH b r r' Ha Hb Heq) as [-> ->]. split; reflexivity.
Qed.

(** X4: two generated identifiers are equal only if they were made in the
    same millisecond from the same random characters. *)
Theorem generateUserId_inj e e' :
  generateUserId e = generateUserId e' →
  now e = now e' ∧ JS.substring 2 15 (random36 e) = JS.substring 2 15 (random36 e').
Proof.
  unfold generateUserId. intros Heq. cbn in Heq.
  injection Heq as Heq.
  apply digits_underscore_inj in Heq as [Hn Hr]; try apply pretty_N_digits.
  split; [apply (inj pretty), Hn | exact Hr].
Qed.

Lemma generateUserId_inj_witness :
  now {| now := 42; random36 := "0.k3j9" |} = now {| now := 42; random36 := "0.k3j9" |}
  ∧ JS.substring 2 15 "0.k3j9" = JS.substring 2 15 "0.k3j9".
Proof.
  apply (generateUserId_inj {| now := 42; random36 := "0.k3j9" |}
                            {| now := 42; random36 := "0.k3j9" |}).
  reflexivity.
Defined.

End UserIdMore.

(** ** The editor page over a session *)

Section SessionFacts.
Import Editor Session.

Variable BACKEND_URL : string.
Variable projectId : string.

Local Abbreviation fetchLogs := (Editor.fetchLogs BACKEND_URL projectId).
Local Abbreviation checkStatus := (Editor.checkStatus BACKEND_URL projectId).
Local Abbreviation handleStartBot := (Editor.handleStartBot BACKEND_URL projectId).
Local Abbreviation handleStopBot := (Editor.handleStopBot BACKEND_URL projectId).
Local Abbreviation handle := (Session.handle BACKEND_URL projectId).
Local Abbreviation handleAll := (Session.handleAll BACKEND_URL projectId).
Local Abbreviation confettiKey := (Editor.confettiKey projectId).
Local Abbreviation startedKey := (Editor.startedKey projectId).
Local Abbreviation started := (Session.started projectId).
Local Abbreviation logsRequest :=
  (fetch_ GET (BACKEND_URL +:+ "/logs?project_id=" +:+ projectId) None).
Local Abbreviation stopRequest := (fetch_ POST (BACKEND_URL +:+ "/stop") (Some projectId)).
Local Abbreviation startRequest := (fetch_ POST (BACKEND_URL +:+ "/start") (Some projectId)).

Ltac project :=
  cbn [fst snd negb andb orb app botRunning botLogs isStarting isStopping showLogs
       dockerStatus confettiShown sessionStorage].

Ltac step :=
  cbv [Editor.fetchLogs Editor.checkStatus Editor.handleStartBot Editor.handleStopBot
       Editor.cleanup try_catch try_finally bind fetch emit ret json throw modify gets
       setBotRunning setBotLogs setIsStarting setIsStopping setShowLogs setDockerStatus
       setConfettiShown updStorage getItem setItem removeItem
       state_of effects_of completion_of];
  project.

Ltac step_around_fetchLogs :=
  cbv [Editor.handleStartBot try_catch try_finally bind fetch emit ret json throw
       modify gets setBotRunning setBotLogs setIsStarting setIsStopping setShowLogs
       setDockerStatus setConfettiShown updStorage getItem setItem removeItem
       state_of effects_of completion_of];
  project.

Ltac settle :=
  solve [ unfold scheduled; cbn [List.filter is_syntax_timer length app];
          repeat split; try reflexivity; intros; try assumption; try discriminate;
          try lia ].

Lemma keys_differ : confettiKey ≠ startedKey.
Proof. unfold Editor.confettiKey, Editor.startedKey. cbn. discriminate. Qed.

(** X5: a poll touches nothing but the logs, the running flag, the engine
    indicator and the confetti latch: it sends one request, never alerts,
    never schedules the syntax check, leaves the progress flags and the
    panel alone, never turns the running flag on, and writes no key of
    [sessionStorage] other than the confetti key. *)
Theorem fetchLogs_frame r s :
  requests (effects_of (fetchLogs r s)) = [logsRequest]
  ∧ alerts (effects_of (fetchLogs r s)) = []
  ∧ scheduled (effects_of (fetchLogs r s)) = 0
  ∧ isStarting (state_of (fetchLogs r s)) = isStarting s
  ∧ isStopping (state_of (fetchLogs r s)) = isStopping s
  ∧ showLogs (state_of (fetchLogs r s)) = showLogs s
  ∧ (botRunning (state_of (fetchLogs r s)) = true → botRunning s = true)
  ∧ (∀ k, k ≠ confettiKey →
       sessionStorage (state_of (fetchLogs r s)) !! k = sessionStorage s !! k).
Proof.
  destruct r as [m | [] [data | m]]; try (repeat split; (reflexivity || (intros; assumption))).
  step. destruct (status data) as [[]|];
    try (repeat split; (reflexivity || discriminate || (intros; assumption))).
  destruct (_ && _); project; repeat split; try reflexivity; try (intros; assumption).
  intros k Hk. apply lookup_insert_ne. congruence.
Qed.

Lemma handleStartBot_completes docker r rlogs s :
  completion_of (handleStartBot docker r rlogs s) = Normal tt.
Proof.
  destruct r as [m | [] [d | m]];
    try (destruct docker; reflexivity).
  step_around_fetchLogs.
  destruct docker; try reflexivity;
    match goal with |- context [Editor.fetchLogs _ _ rlogs ?st] =>
      pose proof (fetchLogs_completes BACKEND_URL projectId rlogs st) as Hc;
      unfold completion_of in Hc;
      destruct (Editor.fetchLogs BACKEND_URL projectId rlogs st) as [[s1 e1] c1]
    end; cbn [snd] in Hc; subst c1; project;
    destruct (JS.truthy _); reflexivity.
Qed.

(** A click calls the handler of the render on screen. *)
Lemma handle_clickStart r rlogs s :
  handle (clickStart r rlogs) s = handleStartBot (dockerStatus s) r rlogs s.
Proof.
  cbn [Session.handle]. unfold bind, gets.
  destruct (Editor.handleStartBot BACKEND_URL projectId (dockerStatus s) r rlogs s)
    as [[s1 e1] c1]. reflexivity.
Qed.

Lemma checkStatus_completes r s : completion_of (checkStatus r s) = Normal tt.
Proof.
  destruct r as [m | [] [data | m]]; try reflexivity.
  step. destruct (status data) as [[]|]; reflexivity.
Qed.

Lemma handle_completes ev s : completion_of (handle ev s) = Normal tt.
Proof.
  destruct ev; rewrite ?handle_clickStart; cbn [Session.handle].
  - apply handleStartBot_completes.
  - apply handleStartBot_completes.
  - apply handleStopBot_completes.
  - apply fetchLogs_completes.
  - apply checkStatus_completes.
Qed.

Lemma handleAll_cons ev evs s :
  handleAll (ev :: evs) s =
  (state_of (handleAll evs (state_of (handle ev s))),
   effects_of (handle ev s) ++ effects_of (handleAll evs (state_of (handle ev s))),
   completion_of (handleAll evs (state_of (handle ev s)))).
Proof.
  pose proof (handle_completes ev s) as Hc.
  cbn [Session.handleAll]. unfold bind at 1.
  destruct (Session.handle BACKEND_URL projectId ev s) as [[s1 e1] c1].
  unfold completion_of in Hc. cbn in Hc. subst c1.
  unfold state_of, effects_of, completion_of. cbn [fst snd].
  destruct (Session.handleAll BACKEND_URL projectId evs s1) as [[s2 e2] c2]. reflexivity.
Qed.

Lemma scheduled_app e1 e2 : scheduled (e1 ++ e2) = (scheduled e1 + scheduled e2)%nat.
Proof. unfold scheduled. rewrite List.filter_app, length_app. reflexivity. Qed.

(** One start, by whichever render's handler: the syntax check is
    scheduled at most once, only with the mark of a first start absent, and
    the mark is there afterwards if it was there before or the check was
    scheduled. *)
Lemma handleStartBot_scheduled docker r rlogs s :
  (scheduled (effects_of (handleStartBot docker r rlogs s)) ≤ if started s then 0 else 1)%nat
  ∧ (started s = true → started (state_of (handleStartBot docker r rlogs s)) = true)
  ∧ (scheduled (effects_of (handleStartBot docker r rlogs s)) = 1 →
     started (state_of (handleStartBot docker r rlogs s)) = true).
Proof.
  unfold Session.started.
  destruct r as [m | [] [d | m]];
    try (step; destruct docker; project;
         destruct (JS.truthy (sessionStorage s !! _)); settle).
  step_around_fetchLogs.
  destruct docker; project;
    try (destruct (JS.truthy (sessionStorage s !! _)); settle);
    match goal with |- context [Editor.fetchLogs _ _ rlogs ?st] =>
      pose proof (fetchLogs_frame rlogs st) as (_ & _ & Hsch & _ & _ & _ & _ & Hkeys);
      pose proof (fetchLogs_completes BACKEND_URL projectId rlogs st) as Hc;
      specialize (Hkeys startedKey (not_eq_sym keys_differ));
      unfold completion_of, effects_of, state_of in Hc, Hsch, Hkeys;
      destruct (Editor.fetchLogs BACKEND_URL projectId rlogs st) as [[s1 e1] c1]
    end; cbn [fst snd sessionStorage] in Hc, Hsch, Hkeys; subst c1; project;
    rewrite Hkeys;
    destruct (JS.truthy (sessionStorage s !! _)) eqn:Hst; project;
    unfold scheduled in *; cbn [List.filter is_syntax_timer length];
    rewrite ?List.filter_app, ?length_app; cbn [List.filter is_syntax_timer length];
    rewrite ?Hsch, ?Hkeys, ?Hst, ?lookup_insert_eq; settle.
Qed.

(** One event: the same holds of every event. *)
Lemma handle_scheduled ev s :
  (scheduled (effects_of (handle ev s)) ≤ if started s then 0 else 1)%nat
  ∧ (started s = true → started (state_of (handle ev s)) = true)
  ∧ (scheduled (effects_of (handle ev s)) = 1 → started (state_of (handle ev s)) = true).
Proof.
  destruct ev as [r rlogs | r rlogs | r | r | r]; rewrite ?handle_clickStart;
    cbn [Session.handle]; try apply handleStartBot_scheduled;
    unfold Session.started.
  - destruct (JS.truthy (sessionStorage s !! _)) eqn:Hst;
      destruct r as [m | [] [d | m]]; step;
      rewrite ?lookup_delete_ne by apply keys_differ; rewrite ?Hst; settle.
  - pose proof (fetchLogs_frame r s) as (_ & _ & Hsch & _ & _ & _ & _ & Hkeys).
    rewrite Hsch, (Hkeys startedKey (not_eq_sym keys_differ)).
    destruct (JS.truthy _); settle.
  - destruct (JS.truthy (sessionStorage s !! _)) eqn:Hst;
      destruct r as [m | [] [data | m]]; step;
      try destruct (status data) as [[]|]; project; rewrite ?Hst; settle.
Qed.

(** X6: over any sequence of starts (from the button or from the
    auto-start timer), stops, polls and status checks the syntax check is
    scheduled at most once, and not at all when the session already carries
    the mark of a first start: a stop does not re-arm it. *)
Theorem syntax_check_once_per_session evs : ∀ s,
  (scheduled (effects_of (handleAll evs s)) ≤ if started s then 0 else 1)%nat.
Proof.
  induction evs as [|ev evs IH]; intros s.
  - cbn. destruct (started s); lia.
  - rewrite handleAll_cons. unfold effects_of at 1. cbn [fst snd].
    rewrite scheduled_app.
    destruct (handle_scheduled ev s) as (Hle & Hkeep & Hset).
    specialize (IH (state_of (handle ev s))).
    destruct (started s) eqn:Hs.
    + rewrite (Hkeep eq_refl) in IH. lia.
    + destruct (scheduled (effects_of (handle ev s))) as [|[|n]] eqn:Hn; [|rewrite (Hset eq_refl) in IH|]; 
        destruct (started (state_of (handle ev s))); lia.
Qed.

Lemma or_else_nonempty x d : d ≠ "" → JS.or_else x d ≠ "".
Proof. destruct x; cbn; [tauto | discriminate]. Qed.

(** X7: the status check of a freshly mounted page never switches the
    auto-refresh on: unless the engine indicator already said [running], the
    condition of the refresh interval is false after [checkStatus], also when
    the bot is found running. *)
Theorem checkStatus_leaves_autoRefresh_off r s :
  dockerStatus s ≠ running →
  autoRefresh (state_of (checkStatus r s)) = false.
Proof.
  intros Hd. unfold autoRefresh.
  destruct r as [m | [] [data | m]]; step;
    try destruct (status data) as [[]|]; project;
    try reflexivity;
    destruct (dockerStatus s); try congruence;
    destruct (botRunning s); reflexivity.
Qed.

(** X8: a stop that fails changes nothing on the page but the progress
    flag: the bot stays marked as it was, the logs and the confetti latch
    are kept, and exactly one alert with a non-empty text is shown. *)
Theorem handleStopBot_failure r s :
  request_failed r = true →
  ∃ e, JS.or_else e "Failed to stop bot" ≠ ""
       ∧ handleStopBot r s
         = ({| botRunning := botRunning s; botLogs := botLogs s;
               isStarting := isStarting s; isStopping := false;
               showLogs := showLogs s; dockerStatus := dockerStatus s;
               confettiShown := confettiShown s; sessionStorage := sessionStorage s |},
            [stopRequest; console error "" (Some e);
             alert (JS.or_else e "Failed to stop bot")],
            Normal tt).
Proof.
  intros Hfail. destruct r as [m | [] [d | m]]; try discriminate Hfail.
  - exists m. split; [apply or_else_nonempty; discriminate | reflexivity].
  - exists (JS.or_else_opt (detail d) "Failed to stop bot").
    split; [apply or_else_nonempty; discriminate | reflexivity].
  - exists m. split; [apply or_else_nonempty; discriminate | reflexivity].
Qed.

(** X9: a start the back end accepts is followed at once by one poll, and
    the page ends up as that poll leaves it: the running flag is on unless
    the poll reports the container gone, the engine indicator says
    [running] unless the poll reports the engine down, the log panel is
    open and the progress flag is off.  This holds of every handler that
    passes its guard: the one behind the enabled button and the one the
    auto-start timer calls. *)
Theorem handleStartBot_success docker d rlogs s :
  docker ≠ not_running →
  requests (effects_of (handleStartBot docker (response true (json_value d)) rlogs s))
  = [startRequest; logsRequest]
  ∧ alerts (effects_of (handleStartBot docker (response true (json_value d)) rlogs s)) = []
  ∧ isStarting (state_of (handleStartBot docker (response true (json_value d)) rlogs s))
    = false
  ∧ showLogs (state_of (handleStartBot docker (response true (json_value d)) rlogs s))
    = true
  ∧ botRunning (state_of (handleStartBot docker (response true (json_value d)) rlogs s))
    = negb (says container_not_running rlogs)
  ∧ dockerStatus (state_of (handleStartBot docker (response true (json_value d)) rlogs s))
    = (if says docker_not_running rlogs then not_running else running)
  ∧ autoRefresh (state_of (handleStartBot docker (response true (json_value d)) rlogs s))
    = negb (says container_not_running rlogs || says docker_not_running rlogs).
Proof.
  intros Hd. unfold autoRefresh.
  destruct docker; [|congruence|];
    destruct rlogs as [m | [] [data | m]]; step; project;
    cbn [says];
    try destruct (status data) as [[]|]; project;
    try destruct (negb (JS.truthy (sessionStorage s !! Editor.confettiKey projectId))
                  && has_marker _); project;
    rewrite ?lookup_insert_ne by apply keys_differ;
    destruct (JS.truthy (sessionStorage s !! Editor.startedKey projectId)); project;
    repeat split; reflexivity.
Qed.

(** X10: a start that passes the guard and is not carried through (the
    request fails, or the answer has no readable body) has sent the start
    request and nothing else, shows exactly one alert with a non-empty text
    and leaves the running flag as it was.  The handler the auto-start
    timer calls passes the guard whatever the page shows; the button calls
    nothing while the page shows the engine down. *)
Theorem handleStartBot_failure docker r rlogs s :
  docker ≠ not_running →
  (∀ d, r ≠ response true (json_value d)) →
  (∃ msg, msg ≠ ""
          ∧ alerts (effects_of (handleStartBot docker r rlogs s)) = [alert msg]
          ∧ botRunning (state_of (handleStartBot docker r rlogs s)) = botRunning s
          ∧ requests (effects_of (handleStartBot docker r rlogs s)) = [startRequest])
  ∧ (∃ msg, msg ≠ ""
            ∧ alerts (effects_of (Editor.autoStartTimer BACKEND_URL projectId r rlogs s))
              = [alert msg]
            ∧ requests (effects_of (Editor.autoStartTimer BACKEND_URL projectId r rlogs s))
              = [startRequest])
  ∧ (dockerStatus s = not_running →
     Editor.startButton BACKEND_URL projectId r rlogs s = (s, [], Normal tt)).
Proof.
  intros Hd Hr. split; [|split].
  - destruct docker; [|congruence|];
      destruct r as [m | [] [d | m]]; try (exfalso; eapply Hr; reflexivity);
      (eexists; split; [|repeat split; reflexivity]);
      apply or_else_nonempty; discriminate.
  - unfold Editor.autoStartTimer.
    destruct r as [m | [] [d | m]]; try (exfalso; eapply Hr; reflexivity);
      (eexists; split; [|repeat split; reflexivity]);
      apply or_else_nonempty; discriminate.
  - apply startButton_engine_down.
Qed.

End SessionFacts.

Section SessionInstances.
Import Editor Session.

Lemma fetchLogs_frame_witness :
  "bot_proj-1_started" ≠ Editor.confettiKey "proj-1"
  ∧ sessionStorage (state_of (Editor.fetchLogs "http://localhost:8001" "proj-1"
     (response true (json_value {| project_id := "proj-1"; logs := "Bot is online and ready!";
                                   status := Some success; error_ := None |}))
     (initialState (<["bot_proj-1_started" := "true"]> ∅)))) !! "bot_proj-1_started"
    = Some "true".
Proof.
  assert (Hk : "bot_proj-1_started" ≠ Editor.confettiKey "proj-1") by discriminate.
  split; [exact Hk|].
  pose proof (fetchLogs_frame "http://localhost:8001" "proj-1"
     (response true (json_value {| project_id := "proj-1"; logs := "Bot is online and ready!";
                                   status := Some success; error_ := None |}))
     (initialState (<["bot_proj-1_started" := "true"]> ∅)))
    as (_ & _ & _ & _ & _ & _ & _ & Hkeys).
  rewrite (Hkeys "bot_proj-1_started" Hk). reflexivity.
Defined.

Lemma checkStatus_leaves_autoRefresh_off_witness :
  dockerStatus (initialState ∅) ≠ running
  ∧ botRunning (state_of (Editor.checkStatus "http://localhost:8001" "proj-1"
       (response true (json_value {| project_id := "proj-1"; logs := "Bot is online and ready!";
                                     status := Some success; error_ := None |}))
       (initialState ∅))) = true
  ∧ autoRefresh (state_of (Editor.checkStatus "http://localhost:8001" "proj-1"
       (response true (json_value {| project_id := "proj-1"; logs := "Bot is online and ready!";
                                     status := Some success; error_ := None |}))
       (initialState ∅))) = false.
Proof.
  assert (Hd : dockerStatus (initialState ∅) ≠ running) by discriminate.
  split; [exact Hd|]. split; [reflexivity|].
  apply (checkStatus_leaves_autoRefresh_off "http://localhost:8001" "proj-1" _ _ Hd).
Defined.

Lemma handleStopBot_failure_witness :
  request_failed (response false (json_value {| detail := Some "Container not found" |}))
  = true
  ∧ ∃ e, JS.or_else e "Failed to stop bot" ≠ ""
       ∧ effects_of (Editor.handleStopBot "http://localhost:8001" "proj-1"
            (response false (json_value {| detail := Some "Container not found" |}))
            (initialState ∅))
         = [fetch_ POST "http://localhost:8001/stop" (Some "proj-1");
            console error "" (Some e); alert (JS.or_else e "Failed to stop bot")].
Proof.
  split; [reflexivity|].
  destruct (handleStopBot_failure "http://localhost:8001" "proj-1"
              (response false (json_value {| detail := Some "Container not found" |}))
              (initialState ∅) eq_refl) as (e & Hne & Heq).
  exists e. split; [exact Hne|]. rewrite Heq. reflexivity.
Defined.

Lemma handleStartBot_success_witness :
  unknown ≠ not_running
  ∧ botRunning (state_of (Editor.handleStartBot "http://localhost:8001" "proj-1" unknown
       (response true (json_value {| detail := None |}))
       (response true (json_value {| project_id := "proj-1"; logs := "";
                                     status := Some container_not_running; error_ := None |}))
       (initialState ∅))) = false.
Proof.
  assert (Hd : unknown ≠ not_running) by discriminate.
  split; [exact Hd|].
  apply (handleStartBot_success "http://localhost:8001" "proj-1" unknown {| detail := None |}
           (response true (json_value {| project_id := "proj-1"; logs := "";
                                         status := Some container_not_running;
                                         error_ := None |}))
           (initialState ∅) Hd).
Defined.

Lemma handleStartBot_failure_witness :
  unknown ≠ not_running
  ∧ (∀ d : Detail, response true (json_error "Unexpected end of JSON input")
                   ≠ response true (json_value d))
  ∧ ∃ msg, msg ≠ ""
      ∧ alerts (effects_of (Editor.handleStartBot "http://localhost:8001" "proj-1" unknown
           (response true (json_error "Unexpected end of JSON input"))
           (network_error "offline") (initialState ∅))) = [alert msg]
      ∧ requests (effects_of (Editor.handleStartBot "http://localhost:8001" "proj-1" unknown
           (response true (json_error "Unexpected end of JSON input"))
           (network_error "offline") (initialState ∅)))
        = [fetch_ POST "http://localhost:8001/start" (Some "proj-1")].
Proof.
  assert (Hd : unknown ≠ not_running) by discriminate.
  assert (Hr : ∀ d : Detail, response true (json_error "Unexpected end of JSON input")
                  ≠ response true (json_value d)) by discriminate.
  split; [exact Hd|]. split; [exact Hr|].
  destruct (handleStartBot_failure "http://localhost:8001" "proj-1" unknown _
              (network_error "offline") (initialState ∅) Hd Hr)
    as ((msg & Hne & Ha & _ & Hreq) & _).
  exists msg. split; [exact Hne|]. split; [exact Ha | exact Hreq].
Defined.

End SessionInstances.

(** ** The language of a file *)

Section LanguageFacts.
Import Language.

Local Abbreviation checks lower :=
  (if endsWith lower ".ts" then Some "typescript"
   else if endsWith lower ".tsx" then Some "typescript"
   else if endsWith lower ".js" then Some "javascript"
   else if endsWith lower ".jsx" then Some "javascript"
   else if endsWith lower ".json" then Some "json"
   else if endsWith lower ".md" || endsWith lower ".mdx" then Some "markdown"
   else if endsWith lower ".css" then Some "css"
   else if endsWith lower ".html" then Some "html"
   else None).

Example getLanguageForPath_examples :
  getLanguageForPath (Some "src/App.TSX") = Some "typescript"
  ∧ getLanguageForPath (Some "package.json") = Some "json"
  ∧ getLanguageForPath (Some "README.mdx") = Some "markdown"
  ∧ getLanguageForPath (Some "src/bot.py") = None
  ∧ getLanguageForPath (Some "") = None
  ∧ getLanguageForPath None = None.
Proof. repeat split; reflexivity. Qed.

Lemma getLanguageForPath_checks p :
  p ≠ "" → getLanguageForPath (Some p) = checks (toLowerCase p).
Proof. destruct p; [congruence | reflexivity]. Qed.

Lemma append_cons c a b : String c a +:+ b = String c (a +:+ b).
Proof. reflexivity. Qed.

Lemma toLowerCase_app a b : toLowerCase (a +:+ b) = toLowerCase a +:+ toLowerCase b.
Proof.
  induction a as [|c a IH]; [reflexivity|].
  rewrite append_cons. cbn [toLowerCase]. rewrite IH, append_cons. reflexivity.
Qed.

Lemma endsWith_app_r d p suffix :
  endsWith p suffix = true → endsWith (d +:+ p) suffix = true.
Proof.
  intros H. induction d as [|c d IH]; [exact H|].
  rewrite append_cons. cbn [endsWith]. rewrite IH. apply orb_true_r.
Qed.

Lemma proper_tail_app p c x : proper_tail p (String c (x +:+ p)) = true.
Proof.
  revert c. induction x as [|c' x IH]; intros c.
  - change ("" +:+ p) with p. cbn [proper_tail]. rewrite String.eqb_refl. reflexivity.
  - rewrite append_cons.
    change (proper_tail p (String c (String c' (x +:+ p))))
      with (String.eqb p (String c' (x +:+ p)) || proper_tail p (String c' (x +:+ p))).
    rewrite (IH c'). apply orb_true_r.
Qed.

Lemma endsWith_app_inv d p suffix :
  endsWith (d +:+ p) suffix = true →
  endsWith p suffix = true ∨ proper_tail p suffix = true.
Proof.
  induction d as [|c d IH]; [left; assumption|].
  rewrite append_cons. cbn [endsWith]. intros H. apply orb_true_iff in H as [H|H]; [|auto].
  apply String.eqb_eq in H. subst suffix. right. apply proper_tail_app.
Qed.

Lemma lastChar_nonempty s : s ≠ "" → lastChar s ≠ None.
Proof.
  induction s as [|c s IH]; [congruence|]. intros _.
  destruct s; [discriminate|]. apply IH. discriminate.
Qed.

Lemma endsWith_empty suffix : endsWith "" suffix = true → suffix = "".
Proof. destruct suffix; [reflexivity | discriminate]. Qed.

Lemma endsWith_lastChar s suffix :
  endsWith s suffix = true → suffix ≠ "" → lastChar s = lastChar suffix.
Proof.
  intros H Hne. induction s as [|c s IH].
  - apply endsWith_empty in H. congruence.
  - cbn [endsWith] in H. apply orb_true_iff in H as [H|H].
    + apply String.eqb_eq in H. congruence.
    + specialize (IH H). destruct s as [|c' s].
      * apply endsWith_empty in H. congruence.
      * exact IH.
Qed.

(** X11: the language depends on the end of the path only: what the editor
    recognises for a path it recognises for every path that ends with it,
    whatever directories are written in front. *)
Theorem getLanguageForPath_in_any_directory d p l :
  getLanguageForPath (Some p) = Some l →
  getLanguageForPath (Some (d +:+ p)) = Some l.
Proof.
  intros H.
  assert (Hp : p ≠ "") by (intros ->; discriminate H).
  assert (Hdp : d +:+ p ≠ "") by (destruct d; [exact Hp | discriminate]).
  rewrite getLanguageForPath_checks in H by exact Hp.
  rewrite getLanguageForPath_checks by exact Hdp.
  rewrite toLowerCase_app.
  remember (toLowerCase p) as lp eqn:Hlp. clear Hlp Hp Hdp.
  remember (toLowerCase d) as ld eqn:Hld. clear Hld.
  assert (Hsame : ∀ suffix,
             In suffix [".ts"; ".tsx"; ".js"; ".jsx"; ".json"; ".md"; ".mdx"; ".css"; ".html"] →
             endsWith (ld +:+ lp) suffix = endsWith lp suffix).
  { intros suffix Hin. destruct (endsWith lp suffix) eqn:E; [apply endsWith_app_r, E|].
    destruct (endsWith (ld +:+ lp) suffix) eqn:E'; [|reflexivity].
    exfalso. apply endsWith_app_inv in E' as [E'|Ht]; [congruence|].
    cbn [In] in Hin.
    repeat (destruct Hin as [<-|Hin]); try contradiction;
      cbn [proper_tail] in Ht; rewrite orb_false_r in Ht;
      repeat (apply orb_true_iff in Ht as [Ht|Ht]);
      apply String.eqb_eq in Ht; subst lp; vm_compute in H; discriminate H. }
  rewrite !Hsame by (cbn [In]; tauto). exact H.
Qed.

Lemma getLanguageForPath_in_any_directory_witness :
  getLanguageForPath (Some "bot.ts") = Some "typescript"
  ∧ getLanguageForPath (Some ("src/commands/" +:+ "bot.ts")) = Some "typescript".
Proof.
  split; [reflexivity|].
  apply (getLanguageForPath_in_any_directory "src/commands/" "bot.ts" "typescript").
  reflexivity.
Defined.

(** X12: a path whose last character, in lower case, is none of s, x, n, d
    and l has no language: the Python files, the requirements file and the
    Dockerfile of a generated bot are opened as plain text. *)
Theorem getLanguageForPath_other_endings p c :
  lastChar (toLowerCase p) = Some c →
  (c ≠ "s" ∧ c ≠ "x" ∧ c ≠ "n" ∧ c ≠ "d" ∧ c ≠ "l")%char →
  getLanguageForPath (Some p) = None.
Proof.
  intros Hlast (Hs & Hx & Hn & Hd & Hl).
  assert (Hp : p ≠ "") by (intros ->; discriminate Hlast).
  rewrite getLanguageForPath_checks by exact Hp.
  assert (Hno : ∀ suffix c', lastChar suffix = Some c' → c ≠ c' →
                  endsWith (toLowerCase p) suffix = false).
  { intros suffix c' Hc' Hne. destruct (endsWith _ suffix) eqn:E; [|reflexivity].
    exfalso. apply endsWith_lastChar in E; [|intros ->; discriminate Hc'].
    congruence. }
  rewrite (Hno ".ts" "s"%char), (Hno ".tsx" "x"%char), (Hno ".js" "s"%char),
    (Hno ".jsx" "x"%char), (Hno ".json" "n"%char), (Hno ".md" "d"%char),
    (Hno ".mdx" "x"%char), (Hno ".css" "s"%char), (Hno ".html" "l"%char)
    by (reflexivity || assumption).
  reflexivity.
Qed.

Lemma getLanguageForPath_other_endings_witness :
  lastChar (toLowerCase "src/Bot.PY") = Some "y"%char
  ∧ getLanguageForPath (Some "src/Bot.PY") = None.
Proof.
  split; [reflexivity|].
  apply (getLanguageForPath_other_endings "src/Bot.PY" "y"%char); [reflexivity|].
  repeat split; discriminate.
Defined.

End LanguageFacts.

(** ** The search over concatenated trees *)

Section FindFileMore.
Import Tree.

(** X13: searching two lists of nodes one after the other is searching
    their concatenation: a match in the first list hides every match in the
    second. *)
Theorem findFileInTree_app a b t :
  findFileInTree (a ++ b) t =
  match findFileInTree a t with
  | Some found => Some found
  | None => findFileInTree b t
  end.
Proof.
  induction a as [|node a IH]; [reflexivity|].
  cbn [app findFileInTree]. destruct (findFileInTree_body t node); [reflexivity | exact IH].
Qed.

End FindFileMore.

(** ** The files and the explorer of the editor page *)

Section PageFacts.
Import Tree Page.

#[local] Set Warnings "-clear-no-such-hyp".

Variable BACKEND_URL : string.
Variable projectId : string.
Variable encodeURIComponent : string → string.
Variable trim : string → string.
Variable inherited : string → bool.

Local Abbreviation fileUrl := (Page.fileUrl BACKEND_URL projectId encodeURIComponent).
Local Abbreviation treeUrl := (BACKEND_URL +:+ "/projects/" +:+ projectId +:+ "/tree").
Local Abbreviation saveUrl := (BACKEND_URL +:+ "/projects/" +:+ projectId +:+ "/file").
Local Abbreviation getContent := (Page.getContent inherited).
Local Abbreviation editorValue := (Page.editorValue inherited).
Local Abbreviation loadFileContent :=
  (Page.loadFileContent BACKEND_URL projectId encodeURIComponent).
Local Abbreviation clickFile := (Page.clickFile BACKEND_URL projectId encodeURIComponent).
Local Abbreviation clickSave := (Page.clickSave BACKEND_URL projectId inherited).
Local Abbreviation autoLoad := (Page.autoLoad BACKEND_URL projectId encodeURIComponent).
Local Abbreviation loadTree := (Page.loadTree BACKEND_URL projectId encodeURIComponent).
Local Abbreviation handleRefresh := (Page.handleRefresh BACKEND_URL projectId).
Local Abbreviation get url := (editor (Editor.fetch_ Editor.GET url None)).

Ltac fields :=
  cbn [fst snd negb andb orb app editor_ tree selectedFilePath expandedFolders
       contentsByPath messages chatInput isAiThinking isRefreshing applicationId
       content tree_ default].

Ltac run :=
  cbv [Page.loadFileContent Page.readFileFromBackend Page.writeFileToBackend
       Page.clickFile Page.clickSave Page.onChange Page.loadTree Page.toggleFolder
       Page.editorValue Page.fileUrl
       try_catch try_finally bind fetchGet fetchPut emit ret json throw modify gets
       consoleLog consoleError setTree setSelectedFilePath setExpandedFolders
       setContentsByPath setMessages setChatInput setIsAiThinking setIsRefreshing
       setApplicationId state_of effects_of completion_of value_of];
  fields.

(** X14: toggling a folder twice leaves the explorer as it was, and one
    toggle flips exactly that folder. *)
Theorem toggleFolder_involutive p s :
  expandedFolders (state_of (toggleFolder p (state_of (toggleFolder p s))))
  = expandedFolders s
  ∧ (p ∈ expandedFolders (state_of (toggleFolder p s)) ↔ p ∉ expandedFolders s)
  ∧ ∀ q, q ≠ p →
      (q ∈ expandedFolders (state_of (toggleFolder p s)) ↔ q ∈ expandedFolders s).
Proof.
  clear BACKEND_URL projectId encodeURIComponent trim inherited.
  run. unfold toggled.
  destruct (bool_decide (p ∈ expandedFolders s)) eqn:Hin.
  - apply bool_decide_eq_true in Hin.
    rewrite bool_decide_eq_false_2 by set_solver.
    split; [|split; [set_solver | intros q Hq; set_solver]].
    apply set_eq. intros x. destruct (decide (x = p)) as [->|Hx]; set_solver.
  - apply bool_decide_eq_false in Hin.
    rewrite bool_decide_eq_true_2 by set_solver.
    split; [|split; [set_solver | intros q Hq; set_solver]].
    apply set_eq. intros x. destruct (decide (x = p)) as [->|Hx]; set_solver.
Qed.

(** X15: [loadFileContent] never throws: a file that is read is returned and
    cached under its path, and a file that cannot be read (the request
    fails, the answer is an error or has no readable body) gives [null],
    one line on the console and an unchanged cache. *)
Theorem loadFileContent_outcomes path r s :
  match r with
  | Editor.response true (Editor.json_value data) =>
      loadFileContent path r s =
      ({| editor_ := editor_ s; tree := tree s; selectedFilePath := selectedFilePath s;
          expandedFolders := expandedFolders s;
          contentsByPath := <[path := content data]> (contentsByPath s);
          messages := messages s; chatInput := chatInput s;
          isAiThinking := isAiThinking s; isRefreshing := isRefreshing s;
          applicationId := applicationId s |},
       [get (fileUrl path)], Editor.Normal (Some (content data)))
  | _ =>
      ∃ e, loadFileContent path r s =
           (s, [get (fileUrl path);
                editor (Editor.console Editor.error ("Failed to load " +:+ path +:+ ":")
                          (Some e))],
            Editor.Normal None)
  end.
Proof.
  destruct r as [m | [] [data | m]]; try reflexivity; eexists; reflexivity.
Qed.

(** X16: a click on a file always moves the selection to it; the editor
    then shows the content just read, or, when the file cannot be read, what
    was cached for that path before. *)
Theorem clickFile_selects c p r s :
  selectedFilePath (state_of (clickFile (String c p) r s)) = Some (String c p)
  ∧ editorValue (state_of (clickFile (String c p) r s))
    = match r with
      | Editor.response true (Editor.json_value data) => str (content data)
      | _ => or_empty (getContent (contentsByPath s) (String c p))
      end
  ∧ completion_of (clickFile (String c p) r s) = Editor.Normal tt.
Proof.
  destruct r as [m | [] [data | m]]; run; repeat split; try reflexivity.
  unfold Page.getContent. rewrite lookup_insert_eq.
  destruct (content data); reflexivity.
Qed.

(** X17: what is typed is what is saved: after an edit of the selected file
    the editor shows the text typed, and "Save" sends exactly that text for
    that path; a save that fails alerts and does not throw. *)
Theorem typed_is_saved c p v r s :
  selectedFilePath s = Some (String c p) →
  editorValue (state_of (onChange v s)) = str (default "" v)
  ∧ (∃ rest, effects_of (clickSave r (state_of (onChange v s)))
             = put saveUrl (String c p) (str (default "" v)) :: rest
             ∧ (Editor.request_failed r = true →
                  ∃ e, rest = [editor (Editor.console Editor.error "" (Some e));
                               editor (Editor.alert "Save failed")])
             ∧ (Editor.request_failed r = false → rest = []))
  ∧ completion_of (clickSave r (state_of (onChange v s))) = Editor.Normal tt.
Proof.
  intros Hsel.
  assert (Hv : or_empty (Some (str (default "" v))) = str (default "" v))
    by (destruct (default "" v); reflexivity).
  destruct r as [m | [] b]; run; repeat (rewrite Hsel; fields);
    unfold Page.getContent; rewrite ?lookup_insert_eq, ?Hv;
    (split; [reflexivity|]); (split; [|reflexivity]); eexists;
    (split; [reflexivity|]); split; intros Hf; try discriminate Hf;
    try reflexivity; eexists; reflexivity.
Qed.

Lemma loadFileContent_completes path r s :
  ∃ v, completion_of (loadFileContent path r s) = Editor.Normal v.
Proof. destruct r as [m | [] [data | m]]; eexists; reflexivity. Qed.

Lemma loadFileContent_no_autoStart path r s :
  List.filter is_autoStart (effects_of (loadFileContent path r s)) = [].
Proof. destruct r as [m | [] [data | m]]; reflexivity. Qed.

Lemma loadFileContent_request path r s :
  In (get (fileUrl path)) (effects_of (loadFileContent path r s)).
Proof. destruct r as [m | [] [data | m]]; left; reflexivity. Qed.

Lemma loadFileContent_frame path r s :
  tree (state_of (loadFileContent path r s)) = tree s
  ∧ selectedFilePath (state_of (loadFileContent path r s)) = selectedFilePath s
  ∧ applicationId (state_of (loadFileContent path r s)) = applicationId s.
Proof. destruct r as [m | [] [data | m]]; repeat split; reflexivity. Qed.

(** The loop over the main files: nothing happens when none is found;
    otherwise the first name that is found decides. *)
Lemma autoLoad_none nodes names r s :
  (∀ g, g ∈ names → findFileInTree nodes g = None) →
  autoLoad nodes names r s = (s, [], Editor.Normal tt).
Proof.
  induction names as [|g names IH]; intros Hnone; [reflexivity|].
  cbn [Page.autoLoad]. rewrite (Hnone g) by apply list_elem_of_here.
  apply IH. intros g' Hg'. apply Hnone, list_elem_of_further, Hg'.
Qed.

Lemma autoLoad_first nodes before f after n r s :
  (∀ g, g ∈ before → findFileInTree nodes g = None) →
  findFileInTree nodes f = Some n →
  autoLoad nodes (before ++ f :: after) r s =
  ((consoleLog ("Auto-loading " +:+ f +:+ "...") ;;
    loadFileContent (path n) r ;;
    setSelectedFilePath (Some (path n)))%act) s.
Proof.
  intros Hnone Hf. induction before as [|g before IH].
  - cbn [app Page.autoLoad]. rewrite Hf. reflexivity.
  - cbn [app Page.autoLoad]. rewrite (Hnone g) by apply list_elem_of_here.
    apply IH. intros g' Hg'. apply Hnone, list_elem_of_further, Hg'.
Qed.

(** What the loop does, whatever the tree. *)
Lemma autoLoad_shape nodes names r s :
  completion_of (autoLoad nodes names r s) = Editor.Normal tt
  ∧ List.filter is_autoStart (effects_of (autoLoad nodes names r s)) = []
  ∧ tree (state_of (autoLoad nodes names r s)) = tree s
  ∧ applicationId (state_of (autoLoad nodes names r s)) = applicationId s.
Proof.
  induction names as [|g names IH]; [repeat split; reflexivity|].
  cbn [Page.autoLoad]. destruct (findFileInTree nodes g) as [n|]; [|exact IH].
  destruct r as [m | [] [data | m]]; repeat split; reflexivity.
Qed.

(** X18: [loadTree] opens the first of main.py, bot.py, src/bot.py and
    src/main.py that [findFileInTree] finds in the tree just loaded: the
    name earlier in that list wins wherever its file lies in the tree; the
    file is requested and selected, also when it cannot be read; when no
    name is found the selection stays as it is. *)
Theorem loadTree_opens_first_main_file data rfile elapsed appParam startParam ls s :
  (∀ before f after n,
     mainFiles = before ++ f :: after →
     (∀ g, g ∈ before → findFileInTree (default [] (tree_ data)) g = None) →
     findFileInTree (default [] (tree_ data)) f = Some n →
     selectedFilePath (state_of (loadTree (Editor.response true (Editor.json_value data))
                                   rfile elapsed appParam startParam ls s))
     = Some (path n)
     ∧ In (get (fileUrl (path n)))
          (effects_of (loadTree (Editor.response true (Editor.json_value data))
                         rfile elapsed appParam startParam ls s)))
  ∧ ((∀ g, g ∈ mainFiles → findFileInTree (default [] (tree_ data)) g = None) →
     selectedFilePath (state_of (loadTree (Editor.response true (Editor.json_value data))
                                   rfile elapsed appParam startParam ls s))
     = selectedFilePath s
     ∧ contentsByPath (state_of (loadTree (Editor.response true (Editor.json_value data))
                                   rfile elapsed appParam startParam ls s))
       = contentsByPath s).
Proof.
  clear trim inherited.
  split.
  - intros before f after n Hmain Hnone Hf.
    unfold Page.loadTree. rewrite Hmain.
    cbv [try_catch bind fetchGet emit ret json throw consoleLog setTree modify
         state_of effects_of]. fields.
    rewrite (autoLoad_first _ before f after n rfile _ Hnone Hf).
    destruct rfile as [m | [] [fd | m]];
      cbv [Page.loadFileContent Page.readFileFromBackend try_catch bind fetchGet emit ret
           json throw consoleLog consoleError setSelectedFilePath setContentsByPath
           setApplicationId modify]; fields;
      destruct (match startParam with Some v => String.eqb v "true" | None => false end);
      fields; (split; [reflexivity|]); cbn [In]; tauto.
  - intros Hnone. unfold Page.loadTree.
    cbv [try_catch bind fetchGet emit ret json throw consoleLog setTree modify
         state_of effects_of]. fields.
    rewrite (autoLoad_none _ mainFiles rfile _ Hnone).
    cbv [setApplicationId modify emit]. fields.
    destruct (match startParam with Some v => String.eqb v "true" | None => false end);
      fields; split; reflexivity.
Qed.

(** X19: [loadTree] schedules the auto-start exactly when the tree was
    loaded and the [autoStart] parameter of the address is the text
    ["true"]; when the tree cannot be loaded nothing on the page changes. *)
Theorem loadTree_autoStart rtree rfile elapsed appParam startParam ls s :
  length (List.filter is_autoStart
            (effects_of (loadTree rtree rfile elapsed appParam startParam ls s)))
  = match rtree, startParam with
    | Editor.response true (Editor.json_value _), Some v =>
        if String.eqb v "true" then 1 else 0
    | _, _ => 0
    end
  ∧ match rtree with
    | Editor.response true (Editor.json_value _) => True
    | _ => state_of (loadTree rtree rfile elapsed appParam startParam ls s) = s
    end
  ∧ completion_of (loadTree rtree rfile elapsed appParam startParam ls s) = Editor.Normal tt.
Proof.
  destruct rtree as [m | [] [data | m]]; try (repeat split; reflexivity).
  unfold Page.loadTree.
  cbv [try_catch bind fetchGet emit ret json throw consoleLog setTree modify
       state_of effects_of completion_of]. fields.
  match goal with |- context [Page.autoLoad _ _ _ ?nodes ?names rfile ?st] =>
    destruct (autoLoad_shape nodes names rfile st) as (Hc & Hno & _);
    unfold completion_of, effects_of in Hc, Hno;
    destruct (Page.autoLoad BACKEND_URL projectId encodeURIComponent nodes names rfile st)
      as [[s1 e1] c1]
  end.
  cbn [fst snd] in Hc, Hno. subst c1.
  cbv [setApplicationId modify emit]. fields.
  destruct startParam as [v|]; [destruct (String.eqb v "true")|]; fields;
    cbn [List.filter is_autoStart]; rewrite ?List.filter_app, ?Hno;
    repeat split; reflexivity.
Qed.

(** X20: [handleRefresh] never throws and always clears its progress flag;
    the tree is replaced only by a tree that was read; the logs are polled
    exactly when the bot runs or the engine indicator says [running] and
    the tree request did not throw, and the bot controls end up as that
    poll leaves them. *)
Theorem handleRefresh_outcomes rtree rlogs s :
  completion_of (handleRefresh rtree rlogs s) = Editor.Normal tt
  ∧ isRefreshing (state_of (handleRefresh rtree rlogs s)) = false
  ∧ tree (state_of (handleRefresh rtree rlogs s))
    = match rtree with
      | Editor.response true (Editor.json_value data) => default [] (tree_ data)
      | _ => tree s
      end
  ∧ editor_ (state_of (handleRefresh rtree rlogs s))
    = (if (Editor.botRunning (editor_ s)
           || match Editor.dockerStatus (editor_ s) with Editor.running => true | _ => false end)
          && match rtree with
             | Editor.network_error _ | Editor.response true (Editor.json_error _) => false
             | _ => true
             end
       then Editor.state_of (Editor.fetchLogs BACKEND_URL projectId rlogs (editor_ s))
       else editor_ s)
  ∧ messages (state_of (handleRefresh rtree rlogs s)) = messages s
  ∧ chatInput (state_of (handleRefresh rtree rlogs s)) = chatInput s
  ∧ isAiThinking (state_of (handleRefresh rtree rlogs s)) = isAiThinking s.
Proof.
  pose proof (fetchLogs_completes BACKEND_URL projectId rlogs (editor_ s)) as Hc.
  unfold Editor.completion_of in Hc.
  unfold Page.handleRefresh, Editor.state_of.
  cbv [try_catch try_finally bind fetchGet emit ret json throw consoleError setTree
       setIsRefreshing modify gets liftEditor state_of effects_of completion_of].
  fields.
  destruct (Editor.botRunning (editor_ s)
            || match Editor.dockerStatus (editor_ s) with
               | Editor.running => true | _ => false end);
    destruct rtree as [m | [] [data | m]]; fields;
    destruct (Editor.fetchLogs BACKEND_URL projectId rlogs (editor_ s)) as [[ed es] c];
    cbn [snd] in Hc; subst; fields; repeat split; reflexivity.
Qed.

End PageFacts.

(** ** The chat of the editor page *)

Section ChatFacts.
Import Tree Page Digits.

Variable BACKEND_URL : string.
Variable projectId : string.
Variable encodeURIComponent : string → string.
Variable trim : string → string.
Variable inherited : string → bool.

Local Abbreviation handleRefresh := (Page.handleRefresh BACKEND_URL projectId).
Local Abbreviation sendMessage := (Page.sendMessage BACKEND_URL projectId trim).
Local Abbreviation userMsg text clock :=
  {| Chat.id := pretty (Chat.atUser clock) +:+ "-u"; Chat.role := Chat.user;
     Chat.content := trim text |}.
Local Abbreviation thinkingId clock := (pretty (Chat.atThinking clock) +:+ "-thinking").

Ltac fields :=
  cbn [fst snd negb andb orb editor_ tree selectedFilePath expandedFolders
       contentsByPath messages chatInput isAiThinking isRefreshing applicationId].

(** A digit string followed by a dash and some text determines that text. *)
Lemma digits_dash_inj a : ∀ b r r',
  all_digits a = true → all_digits b = true →
  a +:+ String "-" r = b +:+ String "-" r' → r = r'.
Proof.
  induction a as [|c a IH]; intros [|c' b] r r' Ha Hb Heq.
  - injection Heq as ->. reflexivity.
  - injection Heq as <- _. apply andb_true_iff in Hb as [Hc _]. discriminate Hc.
  - injection Heq as -> _. apply andb_true_iff in Ha as [Hc _]. discriminate Hc.
  - injection Heq as -> Heq. apply andb_true_iff in Ha as [_ Ha].
    apply andb_true_iff in Hb as [_ Hb]. exact (IH b r r' Ha Hb Heq).
Qed.

Lemma user_id_is_not_thinking_id (t t' : N) :
  String.eqb (pretty t +:+ "-u") (pretty t' +:+ "-thinking") = false.
Proof.
  apply String.eqb_neq. intros Heq.
  apply digits_dash_inj in Heq; try apply pretty_N_digits. discriminate Heq.
Qed.

Lemma without_with_thinking (tu tt : N) (u m : Chat.ChatMessage) prev :
  Chat.id u = pretty tu +:+ "-u" →
  Chat.id m = pretty tt +:+ "-thinking" →
  without (pretty tt +:+ "-thinking") (append m (append u prev))
  = without (pretty tt +:+ "-thinking") prev ++ [u].
Proof.
  intros Hu Hm. unfold without, append. rewrite !List.filter_app. cbn [List.filter].
  rewrite Hu, Hm, user_id_is_not_thinking_id, String.eqb_refl. cbn [negb].
  rewrite app_nil_r. reflexivity.
Qed.

Lemma slice_last_length {A} n (l : list A) : (length (slice_last n l) ≤ n)%nat.
Proof. unfold slice_last. rewrite length_drop. lia. Qed.

Lemma slice_last_suffix {A} n (l : list A) : slice_last n l `suffix_of` l.
Proof. unfold slice_last. apply suffix_drop. Qed.

(** A message that is blank once trimmed, or sent while the assistant
    is still thinking, is dropped: nothing is sent and the page does not
    change. *)
Theorem sendMessage_guard text clock r rtree rlogs rlogs' s :
  trim text = "" ∨ isAiThinking s = true →
  sendMessage text clock r rtree rlogs rlogs' s = (s, [], Editor.Normal tt).
Proof.
  intros Hguard. unfold Page.sendMessage.
  cbv [bind gets ret]. fields.
  destruct Hguard as [-> | ->]; [reflexivity|].
  rewrite orb_true_r. reflexivity.
Qed.

(** X21: the request to the assistant carries the trimmed text, the tree as
    it is shown and at most six messages, the latest that were in the chat
    before this one. *)
Theorem sendMessage_request text clock r rtree rlogs rlogs' s :
  trim text ≠ "" → isAiThinking s = false →
  (∃ rest, effects_of (sendMessage text clock r rtree rlogs rlogs' s)
           = aiAssist (BACKEND_URL +:+ "/ai-assist") projectId (trim text) (tree s)
               (slice_last 6 (messages s)) :: rest)
  ∧ (length (slice_last 6 (messages s)) ≤ 6)%nat
  ∧ slice_last 6 (messages s) `suffix_of` messages s.
Proof.
  intros Htext Hidle.
  split; [|split; [apply slice_last_length | apply slice_last_suffix]].
  unfold Page.sendMessage.
  cbv [bind gets ret try_finally try_catch emit setMessages setChatInput setIsAiThinking
       consoleError modify throw json state_of effects_of completion_of]. fields.
  rewrite Hidle. destruct (trim text) as [|c t] eqn:Ht; [congruence|]. cbn [JS.truthy negb orb].
  fields.
  destruct r as [m | [] [data | m]]; fields; try (eexists; reflexivity).
  destruct (Chat.changes_applied data); [|eexists; reflexivity].
  match goal with |- context [Page.applyChanges _ _ _ _ _ _ _ ?st] =>
    destruct (Page.applyChanges BACKEND_URL projectId clock data rtree rlogs rlogs' st)
      as [[s1 e1] c1]
  end.
  destruct c1; eexists; reflexivity.
Qed.

Lemma adds_ret : adds_replies (ret tt).
Proof. intros s. repeat split; try reflexivity. exists []. rewrite app_nil_r. split; reflexivity. Qed.

Lemma adds_bind (m1 m2 : Act unit) :
  adds_replies m1 → adds_replies m2 → adds_replies (bind m1 (λ _, m2)).
Proof.
  intros H1 H2 s.
  destruct (H1 s) as (Hc1 & Hi1 & Ht1 & x1 & Hm1 & Ha1).
  unfold bind, completion_of, state_of in *.
  destruct (m1 s) as [[s1 e1] c1]. cbn [fst snd] in Hc1, Hi1, Ht1, Hm1. subst c1.
  destruct (H2 s1) as (Hc2 & Hi2 & Ht2 & x2 & Hm2 & Ha2).
  unfold completion_of, state_of in *.
  destruct (m2 s1) as [[s2 e2] c2]. cbn [fst snd] in *. subst c2.
  split; [reflexivity|]. split; [congruence|]. split; [congruence|].
  exists (x1 ++ x2). rewrite Hm2, Hm1, app_assoc, forallb_app, Ha1, Ha2.
  split; reflexivity.
Qed.

Lemma adds_append msg : is_ai_message msg = true → adds_replies (setMessages (append msg)).
Proof.
  intros Hai s. repeat split; try reflexivity. exists [msg]. cbn [forallb].
  rewrite Hai. split; reflexivity.
Qed.

Lemma adds_emit e : adds_replies (emit e).
Proof. intros s. repeat split; try reflexivity. exists []. rewrite app_nil_r. split; reflexivity. Qed.

Lemma adds_liftEditor (m : Editor.Async unit) :
  (∀ ed, Editor.completion_of (m ed) = Editor.Normal tt) → adds_replies (liftEditor m).
Proof.
  intros Hm s. specialize (Hm (editor_ s)).
  unfold liftEditor, completion_of, state_of, Editor.completion_of in *.
  destruct (m (editor_ s)) as [[ed es] c]. cbn [fst snd] in *. subst c.
  repeat split; try reflexivity. exists []. rewrite app_nil_r. split; reflexivity.
Qed.

Lemma adds_handleRefresh rtree rlogs : adds_replies (handleRefresh rtree rlogs).
Proof.
  intros s.
  destruct (handleRefresh_outcomes BACKEND_URL projectId rtree rlogs s)
    as (Hc & _ & _ & _ & Hm & Hi & Ht).
  split; [exact Hc|]. split; [exact Hi|]. split; [exact Ht|].
  exists []. rewrite app_nil_r. split; [exact Hm | reflexivity].
Qed.

Lemma adds_applyChanges clock data rtree rlogs rlogs' :
  adds_replies (Page.applyChanges BACKEND_URL projectId clock data rtree rlogs rlogs').
Proof.
  unfold Page.applyChanges.
  apply adds_bind; [apply adds_handleRefresh|].
  apply adds_bind; [destruct (JS.truthy _); [apply adds_append; reflexivity | apply adds_ret]|].
  apply adds_bind;
    [destruct (Chat.changes data) as [[|c cs]|];
       [apply adds_ret | apply adds_append; reflexivity | apply adds_ret]|].
  destruct (Chat.auto_restarted data); [|apply adds_ret].
  apply adds_bind; [apply adds_append; reflexivity|].
  apply adds_bind; [apply adds_liftEditor; reflexivity|].
  apply adds_bind; [apply adds_emit|].
  apply adds_liftEditor. intros ed. apply fetchLogs_completes.
Qed.

(** X22: a message that is sent always gets an answer in the chat: when
    [sendMessage] is over, the chat is what it was, then the message of the
    user, then one or more messages of the assistant (the reply, or the
    apology when the request failed); the placeholder is gone, the input is
    empty, the thinking flag is off, and nothing was thrown. *)
Theorem sendMessage_replies text clock r rtree rlogs rlogs' s :
  trim text ≠ "" → isAiThinking s = false →
  completion_of (sendMessage text clock r rtree rlogs rlogs' s) = Editor.Normal tt
  ∧ chatInput (state_of (sendMessage text clock r rtree rlogs rlogs' s)) = ""
  ∧ isAiThinking (state_of (sendMessage text clock r rtree rlogs rlogs' s)) = false
  ∧ ∃ reply extra,
      messages (state_of (sendMessage text clock r rtree rlogs rlogs' s))
      = without (thinkingId clock) (messages s) ++ userMsg text clock :: reply :: extra
      ∧ forallb is_ai_message (reply :: extra) = true.
Proof.
  intros Htext Hidle.
  unfold Page.sendMessage.
  cbv [bind gets ret try_finally try_catch emit setMessages setChatInput setIsAiThinking
       consoleError modify throw json state_of effects_of completion_of]. fields.
  rewrite Hidle. destruct (trim text) as [|c t] eqn:Ht; [congruence|].
  cbn [JS.truthy negb orb]. fields.
  destruct r as [m | [] [data | m]]; fields;
    rewrite (without_with_thinking (Chat.atUser clock) (Chat.atThinking clock))
      by reflexivity.
  2: destruct (Chat.changes_applied data).
  2: match goal with |- context [Page.applyChanges _ _ _ _ _ _ _ ?st] =>
       destruct (adds_applyChanges clock data rtree rlogs rlogs' st)
         as (Hc & Hi & Hth & extra & Hm & Hai);
       unfold completion_of, state_of in Hc, Hi, Hth, Hm;
       destruct (Page.applyChanges BACKEND_URL projectId clock data rtree rlogs rlogs' st)
         as [[s1 e1] c1]
     end; cbn [fst snd] in Hc, Hi, Hth, Hm; subst c1; fields.
  all: rewrite ?Ht in *.
  all: repeat split; try reflexivity; try assumption.
  all: unfold append; rewrite ?Hm; fields; unfold append;
       rewrite <- ?app_assoc; cbn [app];
       eexists _, _; (split; [reflexivity|]); cbn [forallb is_ai_message Chat.role andb];
       try reflexivity; try exact Hai.
Qed.

End ChatFacts.

(** ** The user identifier and the application identifier across pages *)

Section PagesFacts.
Import Pages.

Variable BACKEND_URL : string.

Local Abbreviation handleGenerate := (Pages.handleGenerate BACKEND_URL).
Local Abbreviation fetchProjects := (Pages.fetchProjects BACKEND_URL).
Local Abbreviation handleDelete := (Pages.handleDelete BACKEND_URL).

Lemma appId_key_is_not_user_key projectId :
  "bot_" +:+ projectId +:+ "_appId" ≠ User.USER_ID_KEY.
Proof. unfold User.USER_ID_KEY. cbn. discriminate. Qed.

(** In a browser [getUserId] leaves its identifier, truthy, under its key. *)
Lemma pages_getUserId_persists e ls :
  ∃ u ls1 logged, Pages.getUserId e ls = (u, ls1, logged)
                  ∧ ls1 !! User.USER_ID_KEY = Some u ∧ JS.truthy (Some u) = true.
Proof.
  unfold Pages.getUserId.
  destruct (getUserId_persists e ls) as (v & ls' & Heq & Hv & Ht). rewrite Heq.
  eexists _, _, _. split; [reflexivity|]. split; assumption.
Qed.

Lemma pages_getUserId_existing e ls u :
  ls !! User.USER_ID_KEY = Some u → JS.truthy (Some u) = true →
  Pages.getUserId e ls = (u, ls, []).
Proof.
  intros Hu Ht. unfold Pages.getUserId. rewrite (getUserId_existing e ls u Hu Ht). reflexivity.
Qed.

Lemma handleGenerate_keeps_user_id form e elapsed r ls :
  ∃ u, JS.truthy (Some u) = true
       ∧ (handleGenerate form e elapsed r ls).1.2 !! User.USER_ID_KEY = Some u
       ∧ In (generate (BACKEND_URL +:+ "/generate") form u)
            (handleGenerate form e elapsed r ls).2.
Proof.
  unfold Pages.handleGenerate.
  destruct (pages_getUserId_persists e ls) as (u & ls1 & logged & -> & Hu & Ht).
  exists u. split; [exact Ht|].
  destruct r as [m | [msg | m] | [pid | m]]; cbn [fst snd];
    rewrite ?lookup_insert_ne by apply appId_key_is_not_user_key;
    (split; [exact Hu|]); rewrite !in_app_iff; cbn [In]; tauto.
Qed.

Lemma fetchProjects_with_user_id e elapsed r s ls u :
  ls !! User.USER_ID_KEY = Some u → JS.truthy (Some u) = true →
  (fetchProjects e elapsed r s ls).1.2 = ls
  ∧ In (list_ (BACKEND_URL +:+ "/projects?user_id=" +:+ u)) (fetchProjects e elapsed r s ls).2.
Proof.
  intros Hu Ht. unfold Pages.fetchProjects. rewrite (pages_getUserId_existing e ls u Hu Ht).
  destruct r as [m | [] [data | m]]; cbn [fst snd map app In]; split; tauto.
Qed.

(** X23: the bots a browser generates are listed and deleted under the
    identifier they were generated under: the [user_id] of the generation
    request, whatever its outcome, is the one in the address of every later
    listing and deletion request, and it is not empty. *)
Theorem same_user_id_across_pages form e1 elapsed1 r1 ls e2 elapsed2 r2 s
    projectId e3 r3 e4 elapsed4 r4 :
  ∃ u, u ≠ ""
    ∧ In (generate (BACKEND_URL +:+ "/generate") form u)
         (handleGenerate form e1 elapsed1 r1 ls).2
    ∧ In (list_ (BACKEND_URL +:+ "/projects?user_id=" +:+ u))
         (fetchProjects e2 elapsed2 r2 s (handleGenerate form e1 elapsed1 r1 ls).1.2).2
    ∧ In (delete_ (BACKEND_URL +:+ "/projects/" +:+ projectId +:+ "?user_id=" +:+ u))
         (handleDelete projectId true e3 r3 e4 elapsed4 r4
            (fetchProjects e2 elapsed2 r2 s (handleGenerate form e1 elapsed1 r1 ls).1.2).1.1
            (fetchProjects e2 elapsed2 r2 s (handleGenerate form e1 elapsed1 r1 ls).1.2).1.2).2.
Proof.
  destruct (handleGenerate_keeps_user_id form e1 elapsed1 r1 ls) as (u & Ht & Hu & Hgen).
  exists u. split; [intros ->; discriminate Ht|]. split; [exact Hgen|].
  destruct (fetchProjects_with_user_id e2 elapsed2 r2 s _ u Hu Ht) as [Hls Hlist].
  split; [exact Hlist|]. rewrite Hls.
  unfold Pages.handleDelete. cbn [negb].
  rewrite (pages_getUserId_existing e3 _ u Hu Ht).
  destruct r3 as [m | [] b]; cbn [map app]; try (cbn [snd In]; tauto).
  destruct (Pages.fetchProjects BACKEND_URL e4 elapsed4 r4 _ _) as [[s2 ls2] listed].
  cbn [snd In]. tauto.
Qed.

End PagesFacts.

Section AppIdRoundTrip.
Import Pages.


End AppIdRoundTrip.

Section PageInstances.
Import Tree Page.

#[local] Set Warnings "-clear-no-such-hyp".

Local Abbreviation url := "http://localhost:8001".
Local Abbreviation pid := "proj-1".
Local Abbreviation plain := (λ text : string, text).
Local Abbreviation nothing_inherited := (λ _ : string, false).
Local Abbreviation fresh := (Page.initialState (Editor.initialState ∅)).
Local Abbreviation editing :=
  {| editor_ := Editor.initialState ∅; tree := sample_tree;
     selectedFilePath := Some "src/bot.py"; expandedFolders := {["src"]};
     contentsByPath := <["src/bot.py" := "import discord"]> ∅;
     messages := []; chatInput := ""; isAiThinking := false; isRefreshing := false;
     applicationId := "" |}.
Local Abbreviation clock :=
  {| Chat.atUser := 1; Chat.atThinking := 1; Chat.atAnswer := 2; Chat.atSummary := 3;
     Chat.atChanges := 3; Chat.atRestart := 3; Chat.atError := 2 |}.

Lemma getUserId_empty_iff_no_window_witness :
  (User.getUserId {| User.now := 7; User.random36 := "0.abc" |} None).1.1 = "".
Proof.
  apply (getUserId_empty_iff_no_window {| User.now := 7; User.random36 := "0.abc" |} None).
  reflexivity.
Defined.

Lemma toggleFolder_involutive_witness :
  "src" ≠ "docs"
  ∧ ("src" ∈ expandedFolders (state_of (toggleFolder "docs" fresh))
     ↔ "src" ∈ expandedFolders fresh).
Proof.
  assert (Hne : "src" ≠ "docs") by discriminate.
  split; [exact Hne|].
  apply (toggleFolder_involutive "docs" fresh). exact Hne.
Defined.

Lemma typed_is_saved_witness :
  selectedFilePath editing = Some "src/bot.py"
  ∧ Page.editorValue nothing_inherited (state_of (onChange (Some "import os") editing))
    = str "import os".
Proof.
  split; [reflexivity|].
  apply (typed_is_saved url pid nothing_inherited "s" "rc/bot.py" (Some "import os")
           (Editor.response true (Editor.json_error "")) editing).
  reflexivity.
Defined.

Lemma loadTree_opens_first_main_file_witness :
  findFileInTree sample_tree "main.py" = Some (Node "main.py" "src/cogs/main.py" file None)
  ∧ selectedFilePath
      (state_of (Page.loadTree url pid plain
                   (Editor.response true (Editor.json_value {| tree_ := Some sample_tree |}))
                   (Editor.network_error "offline") "12" None None ∅ fresh))
    = Some "src/cogs/main.py".
Proof.
  split; [reflexivity|].
  pose proof (loadTree_opens_first_main_file url pid plain
                {| tree_ := Some sample_tree |} (Editor.network_error "offline") "12"
                None None ∅ fresh) as [Hfirst _].
  apply (Hfirst [] "main.py" ["bot.py"; "src/bot.py"; "src/main.py"]
                (Node "main.py" "src/cogs/main.py" file None)).
  - reflexivity.
  - intros g Hg. inversion Hg.
  - reflexivity.
Defined.

Lemma sendMessage_request_witness :
  plain "add a ping command" ≠ ""
  ∧ isAiThinking fresh = false
  ∧ (length (slice_last 6 (messages fresh)) ≤ 6)%nat.
Proof.
  assert (Htext : plain "add a ping command" ≠ "") by discriminate.
  split; [exact Htext|]. split; [reflexivity|].
  apply (sendMessage_request url pid plain "add a ping command" clock
           (Editor.network_error "offline") (Editor.network_error "offline")
           (Editor.network_error "offline") (Editor.network_error "offline")
           fresh Htext eq_refl).
Defined.

Lemma sendMessage_replies_witness :
  plain "add a ping command" ≠ ""
  ∧ isAiThinking fresh = false
  ∧ chatInput (state_of (Page.sendMessage url pid plain "add a ping command" clock
                           (Editor.network_error "offline") (Editor.network_error "offline")
                           (Editor.network_error "offline") (Editor.network_error "offline")
                           fresh)) = ""
  ∧ isAiThinking (state_of (Page.sendMessage url pid plain "add a ping command" clock
                           (Editor.network_error "offline") (Editor.network_error "offline")
                           (Editor.network_error "offline") (Editor.network_error "offline")
                           fresh)) = false.
Proof.
  assert (Htext : plain "add a ping command" ≠ "") by discriminate.
  split; [exact Htext|]. split; [reflexivity|].
  pose proof (sendMessage_replies url pid plain "add a ping command" clock
           (Editor.network_error "offline") (Editor.network_error "offline")
           (Editor.network_error "offline") (Editor.network_error "offline")
           fresh Htext eq_refl) as (_ & Hi & Ht & _).
  split; [exact Hi | exact Ht].
Defined.

End PageInstances.
